(** * seller-apis: stock and price synchronisation (seller.py, market.py)

    A shallow embedding of the reconciliation and batched-upload code of
    [seller.py] (OZON) and [market.py] (Yandex market), and the properties
    of it that the design document states.

    Conventions of the embedding.
    - A Python [str] is a [string] of UTF-8 bytes.  The only string
      operations of the code are equality, [split(".")], the substitution
      [re.sub("[^0-9]", "", _)] and [int(_)]; the first three act on ASCII
      bytes only and never cut a multi-byte sequence, so they commute with
      the UTF-8 encoding.  [int(_)] decodes the bytes and reads Unicode
      white space and decimal digits as the interpreter does (Unicode
      14.0, the tables of CPython 3.11).  Floats and strings with lone
      surrogates, which have no UTF-8 form, are left out.
    - A feed row is a [dict]: a [gmap string py_val]; [d.get(k)] is
      [get d k], with [None] for a missing key.
    - The records the code builds have a fixed shape and are [Record]s.
    - An exception is a [Raise e] result; the list object [offer_ids] that
      [create_stocks] mutates is threaded explicitly: the function returns
      the final content of that list next to its result.
    - An HTTP endpoint is a function of the requests issued so far and of
      the present request; the state of the outside world is the list of
      requests issued (and, for market.py, the number of readings of the
      clock).  The JSON of a response is typed: a page is a record of the
      fields the code reads.  A response that lacks such a field makes the
      code raise right after the request; the [Raise] answers of an endpoint
      stand for that case too.
    - The [while True] loops of the pagers take fuel: [None] is a loop that
      is still running when the fuel is spent.
    - [int(_)] on more digits than the interpreter's limit for conversions
      (4300 by default) is left out. *)

From Stdlib Require Import ZArith List Ascii String Lia Permutation Bool.
From Stdlib Require Import DecimalString DecimalZ.
From stdpp Require Import gmap strings.
Import ListNotations.

Local Open Scope string_scope.
Local Open Scope list_scope.
Local Open Scope Z_scope.

(** ** Python values and built-ins *)

Module Py.

Inductive exn : Type :=
| ValueError
| TypeError
| AttributeError
| HTTPError (status : Z)
| ConnectionError
| ReadTimeout
| EnvError.

Inductive result (A : Type) : Type :=
| Ok (a : A)
| Raise (e : exn).
Arguments Ok {A} a.
Arguments Raise {A} e.

Definition bind {A B : Type} (r : result A) (k : A -> result B) : result B :=
  match r with
  | Ok a => k a
  | Raise e => Raise e
  end.

(** The cell values a feed row holds. *)
Inductive py_val : Type :=
| PyNone
| PyInt (z : Z)
| PyStr (s : string).

(** [str(v)] *)
Definition str (v : py_val) : string :=
  match v with
  | PyNone => "None"
  | PyInt z => NilZero.string_of_int (Z.to_int z)
  | PyStr s => s
  end.

(** [d.get(k)] *)
Definition get (d : gmap string py_val) (k : string) : py_val :=
  match d !! k with
  | Some v => v
  | None => PyNone
  end.

Definition is_digit (c : ascii) : bool :=
  ((48 <=? nat_of_ascii c) && (nat_of_ascii c <=? 57))%nat.

Definition digit_value (c : ascii) : Z := Z.of_nat (nat_of_ascii c) - 48.

(** The white space [int()] skips around an ASCII literal: tab, line
    feed, vertical tab, form feed, carriage return and space.  The
    separators 28 to 31 are not among them. *)
Definition is_space (c : ascii) : bool :=
  let n := nat_of_ascii c in
  (((9 <=? n) && (n <=? 13)) || (n =? 32))%nat.

Fixpoint lstrip (s : list ascii) : list ascii :=
  match s with
  | c :: s' => if is_space c then lstrip s' else s
  | [] => []
  end.

Definition strip (s : list ascii) : list ascii :=
  rev (lstrip (rev (lstrip s))).

(** The digits of an integer literal: decimal digits, single underscores
    allowed between two digits. *)
Fixpoint digits (acc : Z) (after_digit : bool) (s : list ascii) : option Z :=
  match s with
  | [] => if after_digit then Some acc else None
  | c :: s' =>
      if is_digit c then digits (10 * acc + digit_value c) true s'
      else if Ascii.eqb c "_" then
             if after_digit then digits acc false s' else None
      else None
  end.

(** A continuation byte of UTF-8. *)
Definition is_continuation (b : N) : bool := ((128 <=? b) && (b <? 192))%N.

(** The code points of a string of UTF-8 bytes.  Bytes that encode no
    character, which the encoding of a [str] never holds, give U+FFFD. *)
Fixpoint utf8_decode (bs : list N) : list N :=
  match bs with
  | [] => []
  | b0 :: r0 =>
      if (b0 <? 128)%N then b0 :: utf8_decode r0
      else if ((194 <=? b0) && (b0 <? 224))%N then
        match r0 with
        | b1 :: r1 =>
            if is_continuation b1
            then ((b0 - 192) * 64 + (b1 - 128))%N :: utf8_decode r1
            else 65533%N :: utf8_decode r0
        | _ => 65533%N :: utf8_decode r0
        end
      else if ((224 <=? b0) && (b0 <? 240))%N then
        match r0 with
        | b1 :: b2 :: r2 =>
            if is_continuation b1 && is_continuation b2
            then ((b0 - 224) * 4096 + (b1 - 128) * 64 + (b2 - 128))%N
                 :: utf8_decode r2
            else 65533%N :: utf8_decode r0
        | _ => 65533%N :: utf8_decode r0
        end
      else if ((240 <=? b0) && (b0 <? 245))%N then
        match r0 with
        | b1 :: b2 :: b3 :: r3 =>
            if is_continuation b1 && is_continuation b2 && is_continuation b3
            then ((b0 - 240) * 262144 + (b1 - 128) * 4096
                  + (b2 - 128) * 64 + (b3 - 128))%N
                 :: utf8_decode r3
            else 65533%N :: utf8_decode r0
        | _ => 65533%N :: utf8_decode r0
        end
      else 65533%N :: utf8_decode r0
  end.

(** The white space of Unicode beyond ASCII. *)
Definition is_unicode_space (ch : N) : bool :=
  (existsb (N.eqb ch) [133; 160; 5760; 8232; 8233; 8239; 8287; 12288]
   || ((8192 <=? ch) && (ch <=? 8202)))%N.

(** The code points of the digits zero of Unicode 14.0; the digits one to
    nine of each script follow its zero. *)
Definition decimal_zeros : list N :=
  [48; 1632; 1776; 1984; 2406; 2534; 2662; 2790; 2918; 3046; 3174; 3302;
   3430; 3558; 3664; 3792; 3872; 4160; 4240; 6112; 6160; 6470; 6608; 6784;
   6800; 6992; 7088; 7232; 7248; 42528; 43216; 43264; 43472; 43504; 43600;
   44016; 65296; 66720; 68912; 69734; 69872; 69942; 70096; 70384; 70736;
   70864; 71248; 71360; 71472; 71904; 72016; 72784; 73040; 73120; 92768;
   92864; 93008; 120782; 120792; 120802; 120812; 120822; 123200; 123632;
   125264; 130032]%N.

(** The value of a decimal digit of Unicode. *)
Definition decimal_digit (ch : N) : option N :=
  match find (fun z => ((z <=? ch) && (ch <? z + 10))%N) decimal_zeros with
  | Some z => Some (ch - z)%N
  | None => None
  end.

(** What [int()] does to a string before it reads the literal: a string
    of ASCII characters is left as it is; in another string every
    character from 127 on becomes a space when it is white space, its
    ASCII digit when it is a decimal digit, and ["?"] otherwise.  (The
    interpreter stops at the first ["?"]; no literal holds one, so the
    outcome is the same.) *)
Definition to_ascii_literal (s : list N) : list N :=
  if forallb (fun ch => (ch <? 128)%N) s then s
  else map (fun ch =>
              if (ch <? 127)%N then ch
              else if is_unicode_space ch then 32%N
              else match decimal_digit ch with
                   | Some d => (48 + d)%N
                   | None => 63%N
                   end) s.

Definition int_literal (s : list ascii) : list ascii :=
  map ascii_of_N (to_ascii_literal (utf8_decode (map N_of_ascii s))).

(** The ASCII literal: white space, a sign, digits with single
    underscores between them, white space. *)
Definition parse_int (s : list ascii) : option Z :=
  match strip s with
  | c :: s' =>
      if Ascii.eqb c "-" then option_map Z.opp (digits 0 false s')
      else if Ascii.eqb c "+" then digits 0 false s'
      else digits 0 false (c :: s')
  | [] => None
  end.

(** [int(s)] for a string [s]. *)
Definition int_of_string (s : string) : result Z :=
  match parse_int (int_literal (list_ascii_of_string s)) with
  | Some z => Ok z
  | None => Raise ValueError
  end.

(** [int(v)] *)
Definition int (v : py_val) : result Z :=
  match v with
  | PyNone => Raise TypeError
  | PyInt z => Ok z
  | PyStr s => int_of_string s
  end.

(** [s.split(sep)] for a one-character separator. *)
Fixpoint split (sep : ascii) (s : string) : list string :=
  match s with
  | EmptyString => [EmptyString]
  | String c s' =>
      if Ascii.eqb c sep then EmptyString :: split sep s'
      else match split sep s' with
           | p :: ps => String c p :: ps
           | [] => [String c EmptyString]
           end
  end.

(** [re.sub("[^0-9]", "", s)] *)
Fixpoint sub_non_digits (s : string) : string :=
  match s with
  | EmptyString => EmptyString
  | String c s' =>
      if is_digit c then String c (sub_non_digits s') else sub_non_digits s'
  end.

(** [x in l] for a list of strings. *)
Definition contains (x : string) (l : list string) : bool :=
  existsb (String.eqb x) l.

(** [l.remove(x)]: the first occurrence goes; [None] stands for the
    [ValueError] of an absent element. *)
Fixpoint remove (x : string) (l : list string) : option (list string) :=
  match l with
  | [] => None
  | y :: l' =>
      if String.eqb x y then Some l'
      else option_map (cons y) (remove x l')
  end.

(** [range(i, stop, step)] for a positive step; [fuel] bounds the number
    of elements, and [stop] of them are always enough. *)
Fixpoint range_from (fuel i stop step : nat) : list nat :=
  match fuel with
  | O => []
  | S fuel' =>
      if (i <? stop)%nat then i :: range_from fuel' (i + step) stop step
      else []
  end.

(** [l[i:j]] for [0 <= i <= j]. *)
Definition slice {A : Type} (l : list A) (i j : nat) : list A :=
  firstn (j - i) (skipn i l).

End Py.

Import Py.

(** ** Calls to the outside world

    A computation that talks to a marketplace runs on a state [S] (the
    requests issued so far, the clock) and ends in a value, in an exception,
    or is still looping when its fuel is spent ([None]). *)

Module IO.

Definition io (S A : Type) : Type := S -> option (result A) * S.

Definition ret {S A : Type} (a : A) : io S A := fun s => (Some (Ok a), s).

Definition lift {S A : Type} (r : result A) : io S A := fun s => (Some r, s).

Definition bind {S A B : Type} (c : io S A) (k : A -> io S B) : io S B :=
  fun s =>
    match c s with
    | (Some (Ok a), s') => k a s'
    | (Some (Raise e), s') => (Some (Raise e), s')
    | (None, s') => (None, s')
    end.

(** [for x in l: body(x)] *)
Fixpoint for_each {S A : Type} (body : A -> io S unit) (l : list A)
  : io S unit :=
  match l with
  | [] => ret tt
  | x :: l' => bind (body x) (fun _ => for_each body l')
  end.

End IO.

Declare Scope io_scope.
Delimit Scope io_scope with io.
Notation "'let!' x ':=' c 'in' k" := (IO.bind c (fun x => k))
  (at level 10, x name, c at level 100, k at level 200) : io_scope.
Notation "'run!' c 'in' k" := (IO.bind c (fun _ => k))
  (at level 10, c at level 100, k at level 200) : io_scope.

(** ** seller.py, shared with market.py: [price_conversion], [divide] *)

Definition watch : Type := gmap string py_val.

(** [price_conversion(price)]: [re.sub("[^0-9]", "", price.split(".")[0])];
    a value that is not a string has no [split]. *)
Definition price_conversion (price : py_val) : result string :=
  match price with
  | PyStr s => Ok (sub_non_digits (hd EmptyString (split "." s)))
  | _ => Raise AttributeError
  end.

(** [list(divide(lst, n))]: the chunks [lst[i : i + n]] for
    [i in range(0, len(lst), n)].  [range] refuses a zero step and is empty
    for a negative one. *)
Definition divide {A : Type} (lst : list A) (n : Z) : result (list (list A)) :=
  if n =? 0 then Raise ValueError
  else if n <? 0 then Ok []
  else
    let step := Z.to_nat n in
    Ok (map (fun i => slice lst i (i + step))
            (range_from (length lst) 0 (length lst) step)).

(** The quantity rule of both [create_stocks], on the cell
    [watch.get("Количество")]:
    [count = str(cell)]; [">10"] gives 100, ["1"] gives 0, anything else
    [int(cell)]. *)
Definition stock_of_count (cell : py_val) : result Z :=
  let count := str cell in
  if String.eqb count ">10" then Ok 100
  else if String.eqb count "1" then Ok 0
  else int cell.

(** ** seller.py: the OZON marketplace *)

Module Seller.

(** [{"offer_id": ..., "stock": ...}] *)
Record stock : Type := Stock { stock_offer_id : string; stock_stock : Z }.

(** The price entry of [create_prices]; [price] is a string here. *)
Record price : Type := Price {
  price_auto_action_enabled : string;
  price_currency_code : string;
  price_offer_id : string;
  price_old_price : string;
  price_price : string
}.

(** One entry of ["items"] and the ["result"] object of the product list. *)
Record product : Type := Product { product_id : Z; product_offer_id : string }.

Record page : Type := Page {
  page_items : list product;
  page_total : option Z;
  page_last_id : string
}.

Inductive request : Type :=
| ProductList (last_id : string)
| ImportStocks (stocks : list stock)
| ImportPrices (prices : list price).

(** The account that [client_id] and [seller_token] name: what each
    endpoint answers after the requests issued so far.  [Raise] is the
    exception of [requests.post] or of [raise_for_status]. *)
Record server : Type := Server {
  product_list : list request -> string -> result page;
  import_stocks : list request -> list stock -> result unit;
  import_prices : list request -> list price -> result unit
}.

Definition io : Type -> Type := IO.io (list request).

Definition get_product_list (srv : server) (last_id : string) : io page :=
  fun h => (Some (product_list srv h last_id), h ++ [ProductList last_id]).

Definition update_price (srv : server) (prices : list price) : io unit :=
  fun h => (Some (import_prices srv h prices), h ++ [ImportPrices prices]).

Definition update_stocks (srv : server) (stocks : list stock) : io unit :=
  fun h => (Some (import_stocks srv h stocks), h ++ [ImportStocks stocks]).

(** The [while True] loop of [get_offer_ids]. *)
Fixpoint get_offer_ids_loop (fuel : nat) (srv : server) (last_id : string)
    (product_list : list product) : io (list product) :=
  match fuel with
  | O => fun h => (None, h)
  | S fuel' =>
      (let! some_prod := get_product_list srv last_id in
       let product_list := product_list ++ page_items some_prod in
       let total := page_total some_prod in
       let last_id := page_last_id some_prod in
       match total with
       | Some t =>
           if t =? Z.of_nat (length product_list) then IO.ret product_list
           else get_offer_ids_loop fuel' srv last_id product_list
       | None => get_offer_ids_loop fuel' srv last_id product_list
       end)%io
  end.

Definition get_offer_ids (fuel : nat) (srv : server) : io (list string) :=
  (let! product_list := get_offer_ids_loop fuel srv "" [] in
   IO.ret (map product_offer_id product_list))%io.

(** The first loop of [create_stocks]; the result comes with the content
    of the list object [offer_ids] as the loop leaves it. *)
Fixpoint create_stocks_loop (watch_remnants : list watch)
    (stocks : list stock) (offer_ids : list string)
  : result (list stock) * list string :=
  match watch_remnants with
  | [] => (Ok stocks, offer_ids)
  | watch :: rest =>
      if contains (str (get watch "Код")) offer_ids then
        match stock_of_count (get watch "Количество") with
        | Raise e => (Raise e, offer_ids)
        | Ok stock =>
            let stocks := stocks ++ [Stock (str (get watch "Код")) stock] in
            match remove (str (get watch "Код")) offer_ids with
            | None => (Raise ValueError, offer_ids)
            | Some offer_ids => create_stocks_loop rest stocks offer_ids
            end
        end
      else create_stocks_loop rest stocks offer_ids
  end.

Definition create_stocks (watch_remnants : list watch)
    (offer_ids : list string) : result (list stock) * list string :=
  match create_stocks_loop watch_remnants [] offer_ids with
  | (Ok stocks, offer_ids) =>
      (Ok (stocks ++ map (fun offer_id => Stock offer_id 0) offer_ids),
       offer_ids)
  | (Raise e, offer_ids) => (Raise e, offer_ids)
  end.

Fixpoint create_prices_loop (watch_remnants : list watch)
    (prices : list price) (offer_ids : list string) : result (list price) :=
  match watch_remnants with
  | [] => Ok prices
  | watch :: rest =>
      if contains (str (get watch "Код")) offer_ids then
        match price_conversion (get watch "Цена") with
        | Raise e => Raise e
        | Ok p =>
            let price :=
              Price "UNKNOWN" "RUB" (str (get watch "Код")) "0" p in
            create_prices_loop rest (prices ++ [price]) offer_ids
        end
      else create_prices_loop rest prices offer_ids
  end.

Definition create_prices (watch_remnants : list watch)
    (offer_ids : list string) : result (list price) :=
  create_prices_loop watch_remnants [] offer_ids.

(** The body of the coroutine [upload_prices]. *)
Definition upload_prices (fuel : nat) (srv : server)
    (watch_remnants : list watch) : io (list price) :=
  (let! offer_ids := get_offer_ids fuel srv in
   let! prices := IO.lift (create_prices watch_remnants offer_ids) in
   let! chunks := IO.lift (divide prices 1000) in
   run! IO.for_each (update_price srv) chunks in
   IO.ret prices)%io.

(** The body of the coroutine [upload_stocks]. *)
Definition upload_stocks (fuel : nat) (srv : server)
    (watch_remnants : list watch) : io (list stock * list stock) :=
  (let! offer_ids := get_offer_ids fuel srv in
   let! stocks := IO.lift (fst (create_stocks watch_remnants offer_ids)) in
   let! chunks := IO.lift (divide stocks 100) in
   run! IO.for_each (update_stocks srv) chunks in
   let not_empty := List.filter (fun s => negb (stock_stock s =? 0)) stocks in
   IO.ret (not_empty, stocks))%io.

(** The [try] block of [main]; [download_stock] is the outcome of the
    download.  [create_prices] receives the list object that
    [create_stocks] was given, in the state [create_stocks] left it. *)
Definition main_try (fuel : nat) (srv : server)
    (download_stock : result (list watch)) : io unit :=
  (let! offer_ids := get_offer_ids fuel srv in
   let! watch_remnants := IO.lift download_stock in
   let (created, offer_ids) := create_stocks watch_remnants offer_ids in
   let! stocks := IO.lift created in
   let! chunks := IO.lift (divide stocks 100) in
   run! IO.for_each (update_stocks srv) chunks in
   let! prices := IO.lift (create_prices watch_remnants offer_ids) in
   let! chunks := IO.lift (divide prices 900) in
   IO.for_each (update_price srv) chunks)%io.

(** [main] once [env.str] has returned the two credentials, which [srv]
    stands for: every exception of the [try] block is caught and
    printed. *)
Definition main (fuel : nat) (srv : server)
    (download_stock : result (list watch)) : io unit :=
  fun h =>
    match main_try fuel srv download_stock h with
    | (Some (Raise _), h') => (Some (Ok tt), h')
    | r => r
    end.

(** [main] from its first statement.  [env.str(name)] raises [EnvError]
    for a variable that is not set, and both calls come before the [try]
    block; [env] is the environment and [account client_id seller_token]
    the account the credentials name. *)
Definition main_from_env (env : string -> option string)
    (account : string -> string -> server) (fuel : nat)
    (download_stock : result (list watch)) : io unit :=
  match env "SELLER_TOKEN" with
  | None => IO.lift (Raise EnvError)
  | Some seller_token =>
      match env "CLIENT_ID" with
      | None => IO.lift (Raise EnvError)
      | Some client_id =>
          main fuel (account client_id seller_token) download_stock
      end
  end.

End Seller.

(** ** market.py: the Yandex market campaigns *)

Module Market.

(** One entry of ["items"] of a stock record. *)
Record item : Type := Item {
  item_count : Z;
  item_type : string;
  item_updatedAt : string
}.

(** [{"sku": ..., "warehouseId": ..., "items": [...]}] *)
Record stock : Type := Stock {
  stock_sku : string;
  stock_warehouseId : string;
  stock_items : list item
}.

(** [{"id": ..., "price": {"value": ..., "currencyId": ...}}] *)
Record price_value : Type := PriceValue {
  price_value_value : Z;
  price_value_currencyId : string
}.

Record price : Type := Price { price_id : string; price_price : price_value }.

(** The ["result"] object of the offer-mapping entries: the [shopSku] of
    each entry and [paging.nextPageToken]. *)
Record mapping_page : Type := Page {
  page_offerMappingEntries : list string;
  page_nextPageToken : option string
}.

Inductive request : Type :=
| OfferMappingEntries (page_token : string)
| PutStocks (skus : list stock)
| PostPrices (offers : list price).

(** The campaign that [campaign_id] and the token name. *)
Record server : Type := Server {
  offer_mapping_entries : list request -> string -> result mapping_page;
  put_stocks : list request -> list stock -> result unit;
  post_prices : list request -> list price -> result unit
}.

(** The outside world: the requests issued and the number of readings
    of the clock taken so far. *)
Record world : Type := World { requests : list request; ticks : nat }.

Definition io : Type -> Type := IO.io world.

Definition call {A : Type} (answer : list request -> result A)
    (r : request) : io A :=
  fun w => (Some (answer (requests w)), World (requests w ++ [r]) (ticks w)).

Definition get_product_list (srv : server) (page : string)
  : io mapping_page :=
  call (fun h => offer_mapping_entries srv h page) (OfferMappingEntries page).

Definition update_stocks (srv : server) (stocks : list stock) : io unit :=
  call (fun h => put_stocks srv h stocks) (PutStocks stocks).

Definition update_price (srv : server) (prices : list price) : io unit :=
  call (fun h => post_prices srv h prices) (PostPrices prices).

(** [not page] for a token that is [None] or a string. *)
Definition falsy (page : option string) : bool :=
  match page with
  | None => true
  | Some s => String.eqb s ""
  end.

Fixpoint get_offer_ids_loop (fuel : nat) (srv : server) (page : string)
    (product_list : list string) : io (list string) :=
  match fuel with
  | O => fun w => (None, w)
  | S fuel' =>
      (let! some_prod := get_product_list srv page in
       let product_list := product_list ++ page_offerMappingEntries some_prod in
       let page := page_nextPageToken some_prod in
       if falsy page then IO.ret product_list
       else get_offer_ids_loop fuel' srv (default "" page) product_list)%io
  end.

Definition get_offer_ids (fuel : nat) (srv : server) : io (list string) :=
  get_offer_ids_loop fuel srv "" [].

Fixpoint create_stocks_loop (watch_remnants : list watch)
    (stocks : list stock) (offer_ids : list string)
    (warehouse_id date : string) : result (list stock) * list string :=
  match watch_remnants with
  | [] => (Ok stocks, offer_ids)
  | watch :: rest =>
      if contains (str (get watch "Код")) offer_ids then
        match stock_of_count (get watch "Количество") with
        | Raise e => (Raise e, offer_ids)
        | Ok stock =>
            let stocks :=
              stocks ++ [Stock (str (get watch "Код")) warehouse_id
                               [Item stock "FIT" date]] in
            match remove (str (get watch "Код")) offer_ids with
            | None => (Raise ValueError, offer_ids)
            | Some offer_ids =>
                create_stocks_loop rest stocks offer_ids warehouse_id date
            end
        end
      else create_stocks_loop rest stocks offer_ids warehouse_id date
  end.

(** [create_stocks]: the result, the final content of the list object
    [offer_ids], and the world, in which only the clock is touched.
    [utcnow n] is [datetime.datetime.utcnow()], cut to seconds and in ISO
    format, at the reading number [n] of the clock. *)
Definition create_stocks (utcnow : nat -> string)
    (watch_remnants : list watch) (offer_ids : list string)
    (warehouse_id : string) (w : world)
  : result (list stock) * list string * world :=
  let date := (utcnow (ticks w) ++ "Z")%string in
  let w := World (requests w) (S (ticks w)) in
  match create_stocks_loop watch_remnants [] offer_ids warehouse_id date with
  | (Ok stocks, offer_ids) =>
      (Ok (stocks ++ map (fun offer_id =>
                            Stock offer_id warehouse_id [Item 0 "FIT" date])
                         offer_ids),
       offer_ids, w)
  | (Raise e, offer_ids) => (Raise e, offer_ids, w)
  end.

Fixpoint create_prices_loop (watch_remnants : list watch)
    (prices : list price) (offer_ids : list string) : result (list price) :=
  match watch_remnants with
  | [] => Ok prices
  | watch :: rest =>
      if contains (str (get watch "Код")) offer_ids then
        match Py.bind (price_conversion (get watch "Цена")) int_of_string with
        | Raise e => Raise e
        | Ok value =>
            let price :=
              Price (str (get watch "Код")) (PriceValue value "RUR") in
            create_prices_loop rest (prices ++ [price]) offer_ids
        end
      else create_prices_loop rest prices offer_ids
  end.

Definition create_prices (watch_remnants : list watch)
    (offer_ids : list string) : result (list price) :=
  create_prices_loop watch_remnants [] offer_ids.

(** The body of the coroutine [upload_prices]. *)
Definition upload_prices (fuel : nat) (srv : server)
    (watch_remnants : list watch) : io (list price) :=
  (let! offer_ids := get_offer_ids fuel srv in
   let! prices := IO.lift (create_prices watch_remnants offer_ids) in
   let! chunks := IO.lift (divide prices 500) in
   run! IO.for_each (update_price srv) chunks in
   IO.ret prices)%io.

(** The body of the coroutine [upload_stocks]. *)
Definition upload_stocks (fuel : nat) (srv : server) (utcnow : nat -> string)
    (watch_remnants : list watch) (warehouse_id : string)
  : io (list stock * list stock) :=
  (let! offer_ids := get_offer_ids fuel srv in
   let! stocks :=
     (fun w =>
        let '(created, _, w) :=
          create_stocks utcnow watch_remnants offer_ids warehouse_id w in
        (Some created, w)) in
   let! chunks := IO.lift (divide stocks 2000) in
   run! IO.for_each (update_stocks srv) chunks in
   let not_empty :=
     List.filter
       (fun stock =>
          negb (item_count (hd (Item 0 "" "") (stock_items stock)) =? 0))
       stocks in
   IO.ret (not_empty, stocks))%io.

(** The [try] block of [main], for the campaigns FBS and DBS.  Both calls
    [upload_prices(...)] of the block are made without [await]: each builds
    a coroutine object whose body never runs, and so stands for no
    computation here. *)
Definition main_try (fuel : nat) (campaign_fbs campaign_dbs : server)
    (utcnow : nat -> string) (watch_remnants : list watch)
    (warehouse_fbs_id warehouse_dbs_id : string) : io unit :=
  (let! offer_ids := get_offer_ids fuel campaign_fbs in
   let! stocks :=
     (fun w =>
        let '(created, _, w) :=
          create_stocks utcnow watch_remnants offer_ids warehouse_fbs_id w in
        (Some created, w)) in
   let! chunks := IO.lift (divide stocks 2000) in
   run! IO.for_each (update_stocks campaign_fbs) chunks in
   let! offer_ids := get_offer_ids fuel campaign_dbs in
   let! stocks :=
     (fun w =>
        let '(created, _, w) :=
          create_stocks utcnow watch_remnants offer_ids warehouse_dbs_id w in
        (Some created, w)) in
   let! chunks := IO.lift (divide stocks 2000) in
   IO.for_each (update_stocks campaign_dbs) chunks)%io.

(** [main] once [env.str] has returned the token, the campaigns and the
    warehouses: [download_stock()] is called before the [try] block, so its
    exception leaves [main]; every exception of the block is caught and
    printed. *)
Definition main (fuel : nat) (campaign_fbs campaign_dbs : server)
    (utcnow : nat -> string) (download_stock : result (list watch))
    (warehouse_fbs_id warehouse_dbs_id : string) : io unit :=
  match download_stock with
  | Raise e => IO.lift (Raise e)
  | Ok watch_remnants =>
      fun w =>
        match main_try fuel campaign_fbs campaign_dbs utcnow watch_remnants
                warehouse_fbs_id warehouse_dbs_id w with
        | (Some (Raise _), w') => (Some (Ok tt), w')
        | r => r
        end
  end.

(** [main] from its first statement.  The five calls of [env.str] come
    first, each raising [EnvError] for a variable that is not set; [env] is
    the environment and [campaign campaign_id market_token] the campaign
    these name. *)
Definition main_from_env (env : string -> option string)
    (campaign : string -> string -> server) (fuel : nat)
    (utcnow : nat -> string) (download_stock : result (list watch))
  : io unit :=
  match env "MARKET_TOKEN", env "FBS_ID", env "DBS_ID",
        env "WAREHOUSE_FBS_ID", env "WAREHOUSE_DBS_ID" with
  | Some market_token, Some campaign_fbs_id, Some campaign_dbs_id,
    Some warehouse_fbs_id, Some warehouse_dbs_id =>
      main fuel (campaign campaign_fbs_id market_token)
        (campaign campaign_dbs_id market_token) utcnow download_stock
        warehouse_fbs_id warehouse_dbs_id
  | _, _, _, _, _ => IO.lift (Raise EnvError)
  end.

End Market.

(** * The vocabulary of the statements *)

(** The characters of a string. *)
Definition chars : string -> list ascii := list_ascii_of_string.

(** The number a string of decimal digits writes. *)
Definition decimal_value (s : list ascii) : Z :=
  fold_left (fun acc c => 10 * acc + digit_value c) s 0.

(** [str(watch.get("Код"))] *)
Definition code_of (row : watch) : string := str (get row "Код").

(** The first feed row with the code [id]. *)
Definition first_row (id : string) (feed : list watch) : option watch :=
  find (fun row => String.eqb (code_of row) id) feed.

(** The codes of the feed rows that [offer_ids] lists, in feed order. *)
Definition listed_codes (feed : list watch) (offer_ids : list string)
  : list string :=
  List.filter (fun c => contains c offer_ids) (map code_of feed).

(** The end-to-end scenario of the design document. *)
Definition scenario_feed : list watch :=
  [ {[ "Код" := PyStr "A"; "Количество" := PyStr ">10";
       "Цена" := PyStr "100.00 р" ]};
    {[ "Код" := PyStr "B"; "Количество" := PyStr "1";
       "Цена" := PyStr "50.00 р" ]} ].

(** The stock records seller.py builds in that scenario. *)
Definition scenario_stocks : list Seller.stock :=
  [Seller.Stock "A" 100; Seller.Stock "B" 0; Seller.Stock "C" 0].

(** A feed that has the code ["A"] on two rows. *)
Definition duplicate_feed : list watch :=
  [ {[ "Код" := PyStr "A"; "Количество" := PyStr "5";
       "Цена" := PyStr "100.00 руб" ]};
    {[ "Код" := PyStr "A"; "Количество" := PyStr "7";
       "Цена" := PyStr "120.00 руб" ]} ].

(** A stock record whose single item carries the date [date]. *)
Definition stamped (date : string) (r : Market.stock) : Prop :=
  exists q : Z, Market.stock_items r = [Market.Item q "FIT" date].

(** The requests of the chunks [chunks], in order. *)
Definition puts (chunks : list (list Market.stock)) : list Market.request :=
  map Market.PutStocks chunks.

(** The campaign accepts the chunk number [k] of [chunks] when the
    chunks before it have been sent after the requests [h]. *)
Definition accepted (srv : Market.server) (h : list Market.request)
    (chunks : list (list Market.stock)) (k : nat) : Prop :=
  Market.put_stocks srv (h ++ puts (firstn k chunks)) (nth k chunks [])
  = Ok tt.

(** A campaign that lists ["A"], ["B"] and ["C"] on one page and answers
    every stock update with the status 500. *)
Definition rejecting_campaign : Market.server :=
  Market.Server
    (fun _ _ => Ok (Market.Page ["A"; "B"; "C"] None))
    (fun _ _ => Raise (HTTPError 500))
    (fun _ _ => Ok tt).

(** The stock records market.py builds in the scenario, at warehouse
    ["wh"]. *)
Definition scenario_market_stocks : list Market.stock :=
  [Market.Stock "A" "wh" [Market.Item 100 "FIT" "2024-01-01T00:00:00Z"];
   Market.Stock "B" "wh" [Market.Item 0 "FIT" "2024-01-01T00:00:00Z"];
   Market.Stock "C" "wh" [Market.Item 0 "FIT" "2024-01-01T00:00:00Z"]].

(** What the loop of [get_offer_ids] holds between two iterations. *)
Record pager_state : Type := PagerState {
  st_last_id : string;
  st_products : list Seller.product;
  st_requests : list Seller.request
}.

(** One page request: the page received and the state after it. *)
Definition turn (srv : Seller.server) (s : pager_state)
  : result (Seller.page * pager_state) :=
  match Seller.product_list srv (st_requests s) (st_last_id s) with
  | Ok p =>
      Ok (p, PagerState (Seller.page_last_id p)
                        (st_products s ++ Seller.page_items p)
                        (st_requests s ++ [Seller.ProductList (st_last_id s)]))
  | Raise e => Raise e
  end.

(** The iteration number [k] (from 0) of a pager that starts in [s] and
    asks for page after page: its page and the state after it. *)
Fixpoint iteration (srv : Seller.server) (k : nat) (s : pager_state)
  : result (Seller.page * pager_state) :=
  match k with
  | O => turn srv s
  | S k' =>
      match iteration srv k' s with
      | Ok (_, s') => turn srv s'
      | Raise e => Raise e
      end
  end.

(** The count of the items accumulated equals the [total] of the page
    just received. *)
Definition total_reached (ps : Seller.page * pager_state) : bool :=
  match Seller.page_total (fst ps) with
  | Some t => t =? Z.of_nat (length (st_products (snd ps)))
  | None => false
  end.

(** The total is reached at the iteration number [k]. *)
Definition reached_at (srv : Seller.server) (k : nat) (s : pager_state)
  : Prop :=
  exists ps, iteration srv k s = Ok ps /\ total_reached ps = true.

(** The loop of [get_offer_ids], entered in the state [s]. *)
Definition loop_from (srv : Seller.server) (fuel : nat) (s : pager_state) :=
  Seller.get_offer_ids_loop fuel srv (st_last_id s) (st_products s)
    (st_requests s).

(** An account with the products ["A"] and ["B"] on one page. *)
Definition two_products : Seller.server :=
  Seller.Server
    (fun _ _ => Ok (Seller.Page [Seller.Product 1 "A"; Seller.Product 2 "B"]
                                (Some 2) "B"))
    (fun _ _ => Ok tt)
    (fun _ _ => Ok tt).

(** An account whose pages never report a [total]. *)
Definition no_total : Seller.server :=
  Seller.Server
    (fun _ _ => Ok (Seller.Page [Seller.Product 1 "A"] None "A"))
    (fun _ _ => Ok tt)
    (fun _ _ => Ok tt).

(** The product list of the account does not depend on the requests
    issued before: the catalog is unchanged. *)
Definition catalog_unchanged (srv : Seller.server) : Prop :=
  forall (h h' : list Seller.request) (last_id : string),
    Seller.product_list srv h last_id = Seller.product_list srv h' last_id.

(** A feed of one row, for the product ["A"]. *)
Definition one_row_feed : list watch :=
  [ {[ "Код" := PyStr "A"; "Количество" := PyStr "5";
       "Цена" := PyStr "100.00 руб" ]} ].

(** The codes of the feed, in feed order. *)
Definition feed_codes (feed : list watch) : list string := map code_of feed.

(** The identifiers of [offer_ids] that no feed row has, in catalog order. *)
Definition unmatched (feed : list watch) (offer_ids : list string)
  : list string :=
  List.filter (fun id => negb (contains id (feed_codes feed))) offer_ids.

(** The feed rows whose code [offer_ids] lists, in feed order. *)
Definition listed_rows (feed : list watch) (offer_ids : list string)
  : list watch :=
  List.filter (fun row => contains (code_of row) offer_ids) feed.

(** The stock record of market.py for a stock record of seller.py. *)
Definition market_stock (warehouse_id date : string) (s : Seller.stock)
  : Market.stock :=
  Market.Stock (Seller.stock_offer_id s) warehouse_id
    [Market.Item (Seller.stock_stock s) "FIT" date].

(** The digit string of a price: [re.sub("[^0-9]", "", s.split(".")[0])]. *)
Definition price_digits (s : string) : string :=
  sub_non_digits (hd EmptyString (split "." s)).

(** The price cell of a row, when it is a string. *)
Definition price_string (row : watch) : option string :=
  match get row "Цена" with
  | PyStr s => Some s
  | _ => None
  end.

(** The price record of seller.py for a row with the price string [s]. *)
Definition seller_price (row : watch) : Seller.price :=
  Seller.Price "UNKNOWN" "RUB" (code_of row) "0"
    (price_digits (default EmptyString (price_string row))).

(** A request of market.py that is not a price update, and a request of
    seller.py that is not one. *)
Definition not_post_prices (r : Market.request) : Prop :=
  match r with
  | Market.PostPrices _ => False
  | _ => True
  end.

Definition not_import_prices (r : Seller.request) : Prop :=
  match r with
  | Seller.ImportPrices _ => False
  | _ => True
  end.

(** Run in the world [w], the computation [c] only adds requests that
    satisfy [P], and leaves the requests issued before in place. *)
Definition market_adds_at (P : Market.request -> Prop) {A : Type}
    (c : Market.io A) (w : Market.world) : Prop :=
  exists added : list Market.request,
    Market.requests (snd (c w)) = Market.requests w ++ added
    /\ Forall P added.

Definition market_adds (P : Market.request -> Prop) {A : Type}
    (c : Market.io A) : Prop :=
  forall w : Market.world, market_adds_at P c w.

Definition seller_adds_at (P : Seller.request -> Prop) {A : Type}
    (c : Seller.io A) (h : list Seller.request) : Prop :=
  exists added : list Seller.request,
    snd (c h) = h ++ added /\ Forall P added.

Definition seller_adds (P : Seller.request -> Prop) {A : Type}
    (c : Seller.io A) : Prop :=
  forall h : list Seller.request, seller_adds_at P c h.

(** What the loop of [get_offer_ids] of market.py holds between two
    iterations. *)
Record market_pager_state : Type := MarketPagerState {
  mst_page : string;
  mst_products : list string;
  mst_world : Market.world
}.

(** One page request of market.py: the page received and the state after
    it. *)
Definition market_turn (srv : Market.server) (s : market_pager_state)
  : result (Market.mapping_page * market_pager_state) :=
  match Market.offer_mapping_entries srv (Market.requests (mst_world s))
          (mst_page s) with
  | Ok p =>
      Ok (p, MarketPagerState
               (default EmptyString (Market.page_nextPageToken p))
               (mst_products s ++ Market.page_offerMappingEntries p)
               (Market.World
                  (Market.requests (mst_world s)
                   ++ [Market.OfferMappingEntries (mst_page s)])
                  (Market.ticks (mst_world s))))
  | Raise e => Raise e
  end.

(** The iteration number [k] (from 0) of the pager of market.py. *)
Fixpoint market_iteration (srv : Market.server) (k : nat)
    (s : market_pager_state)
  : result (Market.mapping_page * market_pager_state) :=
  match k with
  | O => market_turn srv s
  | S k' =>
      match market_iteration srv k' s with
      | Ok (_, s') => market_turn srv s'
      | Raise e => Raise e
      end
  end.

(** The page of the iteration number [k] has no next page token. *)
Definition last_page_at (srv : Market.server) (k : nat)
    (s : market_pager_state) : Prop :=
  exists ps, market_iteration srv k s = Ok ps
             /\ Market.falsy (Market.page_nextPageToken (fst ps)) = true.

(** The loop of [get_offer_ids] of market.py, entered in the state [s]. *)
Definition market_loop_from (srv : Market.server) (fuel : nat)
    (s : market_pager_state) :=
  Market.get_offer_ids_loop fuel srv (mst_page s) (mst_products s)
    (mst_world s).

(** The requests [get_offer_ids] of seller.py issues for the pages
    [pages], the first with the empty [last_id], each later one with the
    [last_id] of the page before. *)
Fixpoint page_requests (last_id : string) (pages : list Seller.page)
  : list Seller.request :=
  match pages with
  | [] => []
  | p :: pages' =>
      Seller.ProductList last_id :: page_requests (Seller.page_last_id p) pages'
  end.

(** The pages [pages] are what the account answers to those requests,
    issued after the requests [h]. *)
Fixpoint page_answers (srv : Seller.server) (h : list Seller.request)
    (last_id : string) (pages : list Seller.page) : Prop :=
  match pages with
  | [] => True
  | p :: pages' =>
      Seller.product_list srv h last_id = Ok p
      /\ page_answers srv (h ++ [Seller.ProductList last_id])
            (Seller.page_last_id p) pages'
  end.

(** The price record of market.py for a row with a string price. *)
Definition market_price (row : watch) : Market.price :=
  Market.Price (code_of row)
    (Market.PriceValue
       (decimal_value
          (chars (price_digits (default EmptyString (price_string row)))))
       "RUR").

(** * Properties *)

(** ** The batch partitioner [divide] *)

Lemma last_nth {A : Type} (l : list A) (d : A) :
  List.last l d = nth (Nat.pred (length l)) l d.
Proof.
  induction l as [|x [|y l] IH]; try reflexivity.
  exact IH.
Qed.

Section Divide.

Context {A : Type}.
Variables (lst : list A) (step : nat).
Hypothesis step_pos : (0 < step)%nat.

Lemma range_from_nth (fuel i stop k : nat) :
  (k < length (range_from fuel i stop step))%nat ->
  nth k (range_from fuel i stop step) O = (i + k * step)%nat.
Proof.
  revert i k. induction fuel as [|fuel IH]; intros i k; simpl; [lia|].
  destruct (Nat.ltb_spec i stop); simpl; [|lia].
  destruct k as [|k]; [lia|]. intros Hk.
  rewrite IH by lia. lia.
Qed.

Lemma range_from_length (fuel i stop k : nat) :
  (stop <= i + fuel)%nat ->
  (k < length (range_from fuel i stop step))%nat <-> (i + k * step < stop)%nat.
Proof.
  revert i k. induction fuel as [|fuel IH]; intros i k Hfuel; simpl.
  - nia.
  - destruct (Nat.ltb_spec i stop); simpl.
    + destruct k as [|k]; [lia|].
      rewrite <- Nat.succ_lt_mono, IH by lia. lia.
    + nia.
Qed.

Lemma chunks_concat (fuel i : nat) :
  (length lst <= i + fuel)%nat ->
  concat (map (fun i => slice lst i (i + step))
              (range_from fuel i (length lst) step)) = skipn i lst.
Proof.
  revert i. induction fuel as [|fuel IH]; intros i Hfuel; simpl.
  - symmetry. apply skipn_all2. lia.
  - destruct (Nat.ltb_spec i (length lst)); simpl.
    + rewrite IH by lia. unfold slice.
      replace (i + step - i)%nat with step by lia.
      rewrite Nat.add_comm, <- skipn_skipn. apply firstn_skipn.
    + symmetry. apply skipn_all2. lia.
Qed.

Lemma slice_length (i : nat) :
  length (slice lst i (i + step)) = Nat.min step (length lst - i).
Proof.
  unfold slice. rewrite length_firstn, length_skipn.
  replace (i + step - i)%nat with step by lia. reflexivity.
Qed.

End Divide.

(** C8.  For [n >= 1], [divide lst n] yields chunks that are the
    consecutive slices [lst[k*n : k*n + n]] (contiguous, in order, not
    overlapping); every chunk but the last has exactly [n] elements, the
    last one has [len(lst) mod n] elements, or [n] when [n] divides the
    length; the chunks concatenated give [lst] back, and the empty list
    gives no chunk. *)
Theorem divide_partition {A : Type} (lst : list A) (n : Z) :
  1 <= n ->
  exists chunks : list (list A),
    divide lst n = Ok chunks
    /\ concat chunks = lst
    /\ (forall k : nat, (k < length chunks)%nat ->
          nth k chunks [] =
          slice lst (k * Z.to_nat n) (k * Z.to_nat n + Z.to_nat n))
    /\ (forall k : nat, (S k < length chunks)%nat ->
          Z.of_nat (length (nth k chunks [])) = n)
    /\ (chunks <> [] ->
          Z.of_nat (length (List.last chunks [])) =
          if Z.of_nat (length lst) mod n =? 0 then n
          else Z.of_nat (length lst) mod n)
    /\ (lst = [] -> chunks = []).
Proof.
  intros Hn. unfold divide.
  destruct (Z.eqb_spec n 0); [lia|]. destruct (Z.ltb_spec n 0); [lia|].
  set (step := Z.to_nat n). assert (Hstep : (0 < step)%nat) by lia.
  set (starts := range_from (length lst) 0 (length lst) step).
  assert (Hlen : forall k, (k < length starts)%nat <-> (k * step < length lst)%nat).
  { intros k. unfold starts. rewrite range_from_length by lia. lia. }
  assert (Hnth : forall k, (k < length starts)%nat ->
            nth k (map (fun i => slice lst i (i + step)) starts) [] =
            slice lst (k * step) (k * step + step)).
  { intros k Hk.
    rewrite (nth_indep _ [] (slice lst 0 (0 + step)))
      by (rewrite length_map; exact Hk).
    rewrite (map_nth (fun i => slice lst i (i + step)) starts O k).
    unfold starts. rewrite range_from_nth by (exact Hstep || exact Hk).
    reflexivity. }
  eexists. split; [reflexivity|]. fold starts.
  split; [|split; [|split; [|split]]].
  - unfold starts. rewrite chunks_concat by lia. reflexivity.
  - intros k Hk. rewrite length_map in Hk. apply Hnth, Hk.
  - intros k Hk. rewrite length_map in Hk.
    rewrite Hnth by lia. rewrite slice_length by exact Hstep.
    apply Hlen in Hk. nia.
  - intros Hne.
    assert (Hpos : (0 < length starts)%nat).
    { destruct starts; [contradiction Hne; reflexivity | simpl; lia]. }
    rewrite last_nth, length_map.
    rewrite Hnth by lia. rewrite slice_length by exact Hstep.
    set (k := Nat.pred (length starts)).
    assert (Hk : (k * step < length lst)%nat) by (apply Hlen; lia).
    assert (Hk' : ~ (S k * step < length lst)%nat).
    { rewrite <- Hlen. lia. }
    set (r := (length lst - k * step)%nat).
    assert (Hr : (0 < r <= step)%nat) by (unfold r; nia).
    assert (Hl : Z.of_nat (length lst) = Z.of_nat k * n + Z.of_nat r).
    { unfold r. nia. }
    rewrite Nat.min_r by lia.
    destruct (Z.eq_dec (Z.of_nat r) n) as [Hrn | Hrn].
    + replace (Z.of_nat (length lst)) with ((Z.of_nat k + 1) * n) by lia.
      rewrite Z_mod_mult. simpl. exact Hrn.
    + rewrite Hl, Z.add_comm, Z_mod_plus_full, Z.mod_small by lia.
      destruct (Z.eqb_spec (Z.of_nat r) 0); lia.
  - intros ->. reflexivity.
Qed.

(** The theorem at the example of the docstring of [divide]. *)
Lemma divide_partition_witness :
  exists chunks : list (list Z),
    divide [1; 2; 3; 4; 5] 2 = Ok chunks
    /\ concat chunks = [1; 2; 3; 4; 5]
    /\ (forall k : nat, (k < length chunks)%nat ->
          nth k chunks [] =
          slice [1; 2; 3; 4; 5] (k * Z.to_nat 2) (k * Z.to_nat 2 + Z.to_nat 2))
    /\ (forall k : nat, (S k < length chunks)%nat ->
          Z.of_nat (length (nth k chunks [])) = 2)
    /\ (chunks <> [] ->
          Z.of_nat (length (List.last chunks [])) =
          if Z.of_nat (length [1; 2; 3; 4; 5]) mod 2 =? 0 then 2
          else Z.of_nat (length [1; 2; 3; 4; 5]) mod 2)
    /\ ([1; 2; 3; 4; 5] = [] -> chunks = []).
Proof. apply (divide_partition [1; 2; 3; 4; 5] 2). lia. Defined.

Example divide_docstring :
  divide [1; 2; 3; 4; 5] 2 = Ok [[1; 2]; [3; 4]; [5]].
Proof. reflexivity. Qed.

(** ** The quantity rule *)

Lemma contains_In (x : string) (l : list string) :
  contains x l = true <-> In x l.
Proof.
  unfold contains. rewrite existsb_exists. split.
  - intros (y & Hy & Heq). apply String.eqb_eq in Heq. subst. exact Hy.
  - intros Hx. exists x. split; [exact Hx | apply String.eqb_refl].
Qed.


(** ** The price conversion *)

Lemma split_head (t : string) :
  exists rest : string,
    t = (hd EmptyString (split "." t) ++ rest)%string
    /\ ~ In "."%char (chars (hd EmptyString (split "." t)))
    /\ (rest = EmptyString \/ exists r, rest = String "." r).
Proof.
  induction t as [|c t (rest & Heq & Hdot & Hrest)]; simpl.
  - exists EmptyString. simpl. intuition.
  - destruct (Ascii.eqb_spec c "."); simpl.
    + subst c. exists (String "." t). simpl. split; [reflexivity|].
      split; [tauto|]. right. eexists. reflexivity.
    + destruct (split "." t) as [|p ps]; simpl in *.
      * exists t. split; [reflexivity|]. split; [intuition congruence|].
        subst t. exact Hrest.
      * exists rest. split; [rewrite Heq; reflexivity|].
        split; [|exact Hrest].
        intros [Hc | Hin]; [congruence | exact (Hdot Hin)].
Qed.

Lemma sub_non_digits_filter (s : string) :
  chars (sub_non_digits s) = List.filter is_digit (chars s).
Proof.
  induction s as [|c s IH]; simpl; [reflexivity|].
  destruct (is_digit c); simpl; rewrite IH; reflexivity.
Qed.

Lemma digit_not_space (c : ascii) : is_digit c = true -> is_space c = false.
Proof.
  unfold is_digit, is_space. intros H.
  apply andb_true_iff in H as [H1 H2].
  apply Nat.leb_le in H1, H2.
  apply orb_false_iff. split.
  - apply andb_false_iff. right. apply Nat.leb_gt. lia.
  - apply Nat.eqb_neq. lia.
Qed.

Lemma digit_is_ascii (c : ascii) :
  is_digit c = true -> (N_of_ascii c < 128)%N.
Proof.
  unfold is_digit. intros H. apply andb_true_iff in H as [_ H].
  apply Nat.leb_le in H. unfold nat_of_ascii in H. lia.
Qed.

Lemma utf8_decode_ascii (bs : list N) :
  Forall (fun b => (b < 128)%N) bs -> utf8_decode bs = bs.
Proof.
  induction 1 as [|b bs Hb Hbs IH]; simpl; [reflexivity|].
  apply N.ltb_lt in Hb. rewrite Hb, IH. reflexivity.
Qed.

(** On a string of ASCII characters [int()] reads the bytes as they
    are. *)
Lemma int_literal_ascii (s : list ascii) :
  Forall (fun c => (N_of_ascii c < 128)%N) s -> int_literal s = s.
Proof.
  intros Hs. unfold int_literal.
  assert (Hbs : Forall (fun b => (b < 128)%N) (map N_of_ascii s)).
  { apply List.Forall_forall. intros b Hb.
    apply in_map_iff in Hb as (c & <- & Hc).
    rewrite List.Forall_forall in Hs. apply Hs, Hc. }
  rewrite utf8_decode_ascii by exact Hbs. unfold to_ascii_literal.
  replace (forallb (fun ch => (ch <? 128)%N) (map N_of_ascii s)) with true.
  - rewrite map_map. rewrite <- (map_id s) at 2. apply map_ext.
    intros c. apply ascii_N_embedding.
  - symmetry. apply forallb_forall. intros b Hb. apply N.ltb_lt.
    rewrite List.Forall_forall in Hbs. apply Hbs, Hb.
Qed.

Lemma strip_digits (s : list ascii) :
  Forall (fun c => is_digit c = true) s -> strip s = s.
Proof.
  intros Hs. unfold strip.
  assert (Hl : forall l, Forall (fun c => is_digit c = true) l -> lstrip l = l).
  { intros [|c l] Hl; [reflexivity|]. simpl.
    rewrite digit_not_space; [reflexivity|]. inversion Hl; assumption. }
  rewrite (Hl s Hs), Hl, rev_involutive; [reflexivity|].
  apply Forall_rev, Hs.
Qed.

Lemma digits_decimal (s : list ascii) (acc : Z) (after_digit : bool) :
  Forall (fun c => is_digit c = true) s ->
  s <> [] \/ after_digit = true ->
  digits acc after_digit s =
  Some (fold_left (fun acc c => 10 * acc + digit_value c) s acc).
Proof.
  intros Hs. revert acc after_digit.
  induction Hs as [|c s Hc Hs IH]; intros acc after_digit Hne; simpl.
  - destruct Hne as [Hne | ->]; [congruence | reflexivity].
  - rewrite Hc. apply IH. right. reflexivity.
Qed.

Lemma decimal_nonneg (s : list ascii) (acc : Z) :
  Forall (fun c => is_digit c = true) s -> 0 <= acc ->
  0 <= fold_left (fun acc c => 10 * acc + digit_value c) s acc.
Proof.
  intros Hs. revert acc.
  induction Hs as [|c s Hc Hs IH]; intros acc Hacc; simpl; [exact Hacc|].
  apply IH. unfold is_digit in Hc. apply andb_true_iff in Hc as [H1 _].
  apply Nat.leb_le in H1. unfold digit_value. lia.
Qed.

Lemma int_of_digit_string (d : string) :
  Forall (fun c => is_digit c = true) (chars d) ->
  int_of_string d =
  if String.eqb d "" then Raise ValueError else Ok (decimal_value (chars d)).
Proof.
  intros Hd. unfold int_of_string. fold (chars d).
  rewrite int_literal_ascii
    by (eapply List.Forall_impl; [apply digit_is_ascii | exact Hd]).
  unfold parse_int. rewrite strip_digits by exact Hd.
  destruct d as [|c d]; [reflexivity|].
  simpl String.eqb. unfold chars in *. cbn [list_ascii_of_string] in *.
  assert (Hc : is_digit c = true) by (inversion Hd; assumption).
  assert (Hm : Ascii.eqb c "-" = false).
  { destruct (Ascii.eqb_spec c "-"); [subst; discriminate | reflexivity]. }
  assert (Hp : Ascii.eqb c "+" = false).
  { destruct (Ascii.eqb_spec c "+"); [subst; discriminate | reflexivity]. }
  rewrite Hm, Hp, digits_decimal; [reflexivity | exact Hd | left; discriminate].
Qed.

(** ** The literal [int()] reads *)












(** ** The quantity rule: the theorem *)


Example quantity_tokens :
  stock_of_count (PyStr ">10") = Ok 100
  /\ stock_of_count (PyStr "1") = Ok 0
  /\ stock_of_count (PyStr "7") = Ok 7
  /\ stock_of_count (PyStr "abc") = Raise ValueError
  /\ stock_of_count (PyStr "") = Raise ValueError
  /\ stock_of_count (PyInt 1) = Ok 0
  /\ stock_of_count (PyInt 12) = Ok 12
  /\ stock_of_count PyNone = Raise TypeError
  /\ stock_of_count (PyStr " 1") = Ok 1
  /\ stock_of_count (PyStr "-7") = Ok (-7)
  /\ stock_of_count (PyStr "1_000") = Ok 1000
  /\ stock_of_count (PyStr "٣") = Ok 3
  /\ stock_of_count (PyStr "５０") = Ok 50
  /\ stock_of_count
       (PyStr (String (ascii_of_nat 194) (String (ascii_of_nat 160) "5")))
     = Ok 5
  /\ stock_of_count (PyStr (String (ascii_of_nat 31) "5")) = Raise ValueError
  /\ stock_of_count (PyStr "7.0") = Raise ValueError.
Proof. repeat split; reflexivity. Qed.


(** C3, as the code has it.  For a price cell that is the string [t],
    [price_conversion] keeps the part [p] of [t] before the first ["."],
    deletes every character of [p] that is not a decimal digit and returns
    the digit string [d] that remains: it does not parse [d] and it does
    not fail, also when [d] is empty.  [create_prices] of seller.py stores
    [d] as it is; [create_prices] of market.py applies [int] to [d], which
    gives the non-negative number [d] writes and fails with [ValueError]
    exactly when [d] is empty. *)
Theorem price_conversion_digit_string (row : watch) (t : string) :
  get row "Цена" = PyStr t ->
  let code := str (get row "Код") in
  exists p rest d : string,
    t = (p ++ rest)%string
    /\ ~ In "."%char (chars p)
    /\ (rest = "" \/ exists r, rest = String "." r)
    /\ chars d = List.filter is_digit (chars p)
    /\ price_conversion (PyStr t) = Ok d
    /\ Seller.create_prices [row] [code] =
       Ok [Seller.Price "UNKNOWN" "RUB" code "0" d]
    /\ Market.create_prices [row] [code] =
       (if String.eqb d "" then Raise ValueError
        else Ok [Market.Price code
                   (Market.PriceValue (decimal_value (chars d)) "RUR")])
    /\ 0 <= decimal_value (chars d).
Proof.
  intros Hcell code.
  destruct (split_head t) as (rest & Heq & Hdot & Hrest).
  set (p := hd EmptyString (split "." t)) in *.
  set (d := sub_non_digits p).
  assert (Hin : contains code [code] = true) by (apply contains_In; left; reflexivity).
  assert (Hd : chars d = List.filter is_digit (chars p))
    by apply sub_non_digits_filter.
  assert (Hdigits : Forall (fun c => is_digit c = true) (chars d)).
  { rewrite Hd. apply List.Forall_forall. intros c Hc.
    apply filter_In in Hc. tauto. }
  exists p, rest, d. repeat (split; [assumption || reflexivity|]).
  split; [|split].
  - unfold Seller.create_prices, Seller.create_prices_loop.
    fold code. rewrite Hin, Hcell. reflexivity.
  - unfold Market.create_prices, Market.create_prices_loop.
    fold code. rewrite Hin, Hcell.
    change (price_conversion (PyStr t)) with (Ok d). unfold Py.bind.
    rewrite int_of_digit_string by exact Hdigits.
    destruct (String.eqb d ""); reflexivity.
  - apply decimal_nonneg; [exact Hdigits | lia].
Qed.

(** The theorem at the price of the docstring of [price_conversion]. *)
Lemma price_conversion_digit_string_witness :
  let row : watch := {[ "Код" := PyStr "A"; "Цена" := PyStr "5'990.00 руб" ]} in
  get row "Цена" = PyStr "5'990.00 руб"
  /\ exists p rest d : string,
       "5'990.00 руб" = (p ++ rest)%string
       /\ ~ In "."%char (chars p)
       /\ (rest = "" \/ exists r, rest = String "." r)
       /\ chars d = List.filter is_digit (chars p)
       /\ price_conversion (PyStr "5'990.00 руб") = Ok d
       /\ Seller.create_prices [row] ["A"] =
          Ok [Seller.Price "UNKNOWN" "RUB" "A" "0" d]
       /\ Market.create_prices [row] ["A"] =
          (if String.eqb d "" then Raise ValueError
           else Ok [Market.Price "A"
                      (Market.PriceValue (decimal_value (chars d)) "RUR")])
       /\ 0 <= decimal_value (chars d).
Proof.
  intros row. split; [reflexivity|].
  exact (price_conversion_digit_string row "5'990.00 руб" eq_refl).
Defined.

Example price_conversion_docstring :
  price_conversion (PyStr "5'990.00 руб") = Ok "5990"
  /\ price_conversion (PyStr "199 руб.") = Ok "199"
  /\ Py.bind (price_conversion (PyStr "5'990.00 руб")) int_of_string = Ok 5990
  /\ Py.bind (price_conversion (PyStr "руб")) int_of_string = Raise ValueError
  /\ price_conversion (PyInt 5990) = Raise AttributeError.
Proof. repeat split; reflexivity. Qed.

(** C3 as stated fails: the price ["руб"] is converted to the empty
    string, no exception is raised, and seller.py sends that empty price. *)
Lemma price_conversion_no_failure :
  price_conversion (PyStr "руб") = Ok ""
  /\ (forall e, price_conversion (PyStr "руб") <> Raise e)
  /\ Seller.create_prices [{[ "Код" := PyStr "A"; "Цена" := PyStr "руб" ]}] ["A"]
     = Ok [Seller.Price "UNKNOWN" "RUB" "A" "0" ""].
Proof. repeat split; try reflexivity. intros e; discriminate. Qed.

(** ** Reconciliation: [create_stocks] and [create_prices] *)

Lemma remove_Permutation (x : string) (l l' : list string) :
  remove x l = Some l' -> Permutation l (x :: l').
Proof.
  revert l'. induction l as [|y l IH]; simpl; intros l'; [discriminate|].
  destruct (String.eqb_spec x y) as [-> | Hne].
  - intros [= ->]. reflexivity.
  - destruct (remove x l) as [l1|]; [|discriminate]. intros [= <-].
    rewrite (IH l1 eq_refl). apply perm_swap.
Qed.

Lemma remove_NoDup (x : string) (l l' : list string) :
  remove x l = Some l' -> List.NoDup l -> List.NoDup l' /\ ~ In x l'.
Proof.
  intros Hrm Hnd. apply remove_Permutation in Hrm.
  apply (Permutation_NoDup Hrm) in Hnd.
  apply List.NoDup_cons_iff in Hnd. tauto.
Qed.

Lemma first_row_skip (id : string) (row : watch) (feed : list watch) :
  code_of row <> id -> first_row id (row :: feed) = first_row id feed.
Proof.
  intros Hne. unfold first_row. simpl.
  destruct (String.eqb_spec (code_of row) id); [contradiction | reflexivity].
Qed.

Lemma first_row_None (id : string) (feed : list watch) :
  (forall row, In row feed -> code_of row <> id) -> first_row id feed = None.
Proof.
  induction feed as [|row feed IH]; intros H; [reflexivity|].
  rewrite first_row_skip by (apply H; left; reflexivity).
  apply IH. intros row' Hin. apply H. right. exact Hin.
Qed.

(** The invariant of the first loop of [create_stocks]: the records added
    and the identifiers left make up the identifiers the loop started with;
    when these are distinct, each record added carries the quantity of the
    first feed row with its code, and no feed row has a code that is left. *)
Lemma create_stocks_loop_spec (feed : list watch) :
  forall (stocks : list Seller.stock) (ids : list string)
         (out : list Seller.stock) (ids' : list string),
    Seller.create_stocks_loop feed stocks ids = (Ok out, ids') ->
    exists new : list Seller.stock,
      out = stocks ++ new
      /\ Permutation (map Seller.stock_offer_id new ++ ids') ids
      /\ (List.NoDup ids ->
          (forall r, In r new ->
             exists row, first_row (Seller.stock_offer_id r) feed = Some row
                         /\ stock_of_count (get row "Количество")
                            = Ok (Seller.stock_stock r))
          /\ (forall id, In id ids' ->
                forall row, In row feed -> code_of row <> id)).
Proof.
  induction feed as [|row feed IH]; intros stocks ids out ids';
    cbn [Seller.create_stocks_loop].
  - intros [= <- <-]. exists []. rewrite app_nil_r. simpl.
    split; [reflexivity|]. split; [reflexivity|]. intros _. split; tauto.
  - fold (code_of row).
    destruct (contains (code_of row) ids) eqn:Hin.
    + destruct (stock_of_count (get row "Количество")) as [q|e] eqn:Hq;
        [|discriminate].
      destruct (remove (code_of row) ids) as [ids1|] eqn:Hrm; [|discriminate].
      intros Hloop. apply IH in Hloop as (new & -> & Hperm & Hnd).
      exists (Seller.Stock (code_of row) q :: new).
      rewrite <- app_assoc. split; [reflexivity|].
      pose proof (remove_Permutation _ _ _ Hrm) as Hperm1.
      split; [simpl; rewrite Hperm, Hperm1; reflexivity|].
      intros Hids. destruct (remove_NoDup _ _ _ Hrm Hids) as [Hids1 Hnotin].
      destruct (Hnd Hids1) as [Hnew Hleft].
      assert (Hsub : forall id,
                 In id (map Seller.stock_offer_id new ++ ids') ->
                 code_of row <> id).
      { intros id Hid <-. apply Hnotin.
        apply (Permutation_in _ Hperm) in Hid. exact Hid. }
      split.
      * intros r [<- | Hr].
        -- exists row. unfold first_row. simpl.
           rewrite String.eqb_refl. split; [reflexivity | exact Hq].
        -- rewrite first_row_skip; [apply Hnew, Hr|].
           apply Hsub, in_or_app. left. apply in_map, Hr.
      * intros id Hid row' [<- | Hrow'].
        -- apply Hsub, in_or_app. right. exact Hid.
        -- apply (Hleft id Hid row' Hrow').
    + intros Hloop. apply IH in Hloop as (new & -> & Hperm & Hnd).
      exists new. split; [reflexivity|]. split; [exact Hperm|].
      intros Hids. destruct (Hnd Hids) as [Hnew Hleft].
      assert (Hsub : forall id,
                 In id (map Seller.stock_offer_id new ++ ids') ->
                 code_of row <> id).
      { intros id Hid <-. apply (Permutation_in _ Hperm) in Hid.
        apply contains_In in Hid. congruence. }
      split.
      * intros r Hr. rewrite first_row_skip; [apply Hnew, Hr|].
        apply Hsub, in_or_app. left. apply in_map, Hr.
      * intros id Hid row' [<- | Hrow'].
        -- apply Hsub, in_or_app. right. exact Hid.
        -- apply (Hleft id Hid row' Hrow').
Qed.

Lemma seller_create_prices_loop_ids (offer_ids : list string)
    (feed : list watch) :
  forall prices out : list Seller.price,
    Seller.create_prices_loop feed prices offer_ids = Ok out ->
    map Seller.price_offer_id out =
    map Seller.price_offer_id prices ++ listed_codes feed offer_ids.
Proof.
  unfold listed_codes.
  induction feed as [|row feed IH]; intros prices out;
    cbn [Seller.create_prices_loop map List.filter].
  - intros [= <-]. rewrite app_nil_r. reflexivity.
  - fold (code_of row). destruct (contains (code_of row) offer_ids).
    + destruct (price_conversion (get row "Цена")) as [p|e]; [|discriminate].
      intros Hloop. rewrite (IH _ _ Hloop), map_app, <- app_assoc. reflexivity.
    + apply IH.
Qed.

Lemma market_create_prices_loop_ids (offer_ids : list string)
    (feed : list watch) :
  forall prices out : list Market.price,
    Market.create_prices_loop feed prices offer_ids = Ok out ->
    map Market.price_id out =
    map Market.price_id prices ++ listed_codes feed offer_ids.
Proof.
  unfold listed_codes.
  induction feed as [|row feed IH]; intros prices out;
    cbn [Market.create_prices_loop map List.filter].
  - intros [= <-]. rewrite app_nil_r. reflexivity.
  - fold (code_of row). destruct (contains (code_of row) offer_ids).
    + destruct (Py.bind (price_conversion (get row "Цена")) int_of_string)
        as [p|e]; [|discriminate].
      intros Hloop. rewrite (IH _ _ Hloop), map_app, <- app_assoc. reflexivity.
    + apply IH.
Qed.

Lemma count_occ_filter (f : string -> bool) (l : list string) (x : string) :
  count_occ string_dec (List.filter f l) x =
  if f x then count_occ string_dec l x else O.
Proof.
  induction l as [|y l IH]; simpl; [destruct (f x); reflexivity|].
  destruct (f y) eqn:Hfy; simpl; destruct (string_dec y x) as [-> | Hne];
    rewrite IH; try reflexivity.
  - rewrite Hfy. reflexivity.
  - rewrite Hfy. reflexivity.
Qed.

(** C1.  For a catalog [offer_ids] of distinct identifiers, when
    [create_stocks] returns, its records mention exactly the identifiers of
    the catalog, each in one record; the record of an identifier that is
    the code of a feed row carries the quantity of the first such row, the
    record of an identifier that no feed row has carries 0; a feed row
    whose code is not in the catalog has no stock record and no price
    record, and every price record belongs to a feed row that is listed. *)
Theorem create_stocks_reconciles (feed : list watch) (offer_ids : list string)
    (stocks : list Seller.stock) (left : list string) :
  List.NoDup offer_ids ->
  Seller.create_stocks feed offer_ids = (Ok stocks, left) ->
  Permutation (map Seller.stock_offer_id stocks) offer_ids
  /\ List.NoDup (map Seller.stock_offer_id stocks)
  /\ (forall r, In r stocks ->
        match first_row (Seller.stock_offer_id r) feed with
        | Some row =>
            stock_of_count (get row "Количество") = Ok (Seller.stock_stock r)
        | None => Seller.stock_stock r = 0
        end)
  /\ (forall row, In row feed -> ~ In (code_of row) offer_ids ->
        forall r, In r stocks -> Seller.stock_offer_id r <> code_of row)
  /\ (forall prices, Seller.create_prices feed offer_ids = Ok prices ->
        forall p, In p prices ->
          In (Seller.price_offer_id p) offer_ids
          /\ exists row, In row feed /\ code_of row = Seller.price_offer_id p).
Proof.
  intros Hnd. unfold Seller.create_stocks.
  destruct (Seller.create_stocks_loop feed [] offer_ids) as [[new|e] ids'] eqn:Hloop;
    [|discriminate].
  intros [= <- <-].
  apply create_stocks_loop_spec in Hloop as (new' & Hnew & Hperm & Hq).
  simpl in Hnew. subst new'. destruct (Hq Hnd) as [Hmatched Hleft].
  assert (Hids : Permutation
            (map Seller.stock_offer_id
               (new ++ map (fun offer_id => Seller.Stock offer_id 0) ids'))
            offer_ids).
  { rewrite map_app, map_map. simpl. rewrite map_id. exact Hperm. }
  split; [exact Hids|]. split; [|split; [|split]].
  - apply (Permutation_NoDup (Permutation_sym Hids) Hnd).
  - intros r Hr. apply in_app_or in Hr as [Hr | Hr].
    + destruct (Hmatched r Hr) as (row & -> & Hrow). exact Hrow.
    + apply in_map_iff in Hr as (id & <- & Hid). simpl.
      rewrite first_row_None; [reflexivity|]. apply Hleft, Hid.
  - intros row _ Hnot r Hr Heq. apply Hnot. rewrite <- Heq.
    apply (Permutation_in _ Hids), in_map, Hr.
  - intros prices Hprices p Hp.
    apply seller_create_prices_loop_ids in Hprices. simpl in Hprices.
    apply (in_map Seller.price_offer_id) in Hp. rewrite Hprices in Hp.
    unfold listed_codes in Hp. apply filter_In in Hp as [Hcode Hlisted].
    split; [apply contains_In, Hlisted|].
    apply in_map_iff in Hcode as (row & Hrow & Hin). exists row. tauto.
Qed.

Example scenario_records :
  Seller.create_stocks scenario_feed ["A"; "B"; "C"]
  = (Ok scenario_stocks, ["C"])
  /\ Seller.create_prices scenario_feed ["A"; "B"; "C"]
     = Ok [Seller.Price "UNKNOWN" "RUB" "A" "0" "100";
           Seller.Price "UNKNOWN" "RUB" "B" "0" "50"]
  /\ Market.create_prices scenario_feed ["A"; "B"; "C"]
     = Ok [Market.Price "A" (Market.PriceValue 100 "RUR");
           Market.Price "B" (Market.PriceValue 50 "RUR")].
Proof. repeat split; reflexivity. Qed.

Lemma scenario_catalog_distinct : List.NoDup ["A"; "B"; "C"].
Proof.
  repeat (apply List.NoDup_cons; [simpl; intuition discriminate|]).
  apply List.NoDup_nil.
Defined.

(** The theorem at that scenario. *)
Lemma create_stocks_reconciles_witness :
  Permutation (map Seller.stock_offer_id scenario_stocks) ["A"; "B"; "C"]
  /\ List.NoDup (map Seller.stock_offer_id scenario_stocks)
  /\ (forall r, In r scenario_stocks ->
        match first_row (Seller.stock_offer_id r) scenario_feed with
        | Some row =>
            stock_of_count (get row "Количество") = Ok (Seller.stock_stock r)
        | None => Seller.stock_stock r = 0
        end)
  /\ (forall row, In row scenario_feed -> ~ In (code_of row) ["A"; "B"; "C"] ->
        forall r, In r scenario_stocks -> Seller.stock_offer_id r <> code_of row)
  /\ (forall prices,
        Seller.create_prices scenario_feed ["A"; "B"; "C"] = Ok prices ->
        forall p, In p prices ->
          In (Seller.price_offer_id p) ["A"; "B"; "C"]
          /\ exists row,
               In row scenario_feed /\ code_of row = Seller.price_offer_id p).
Proof.
  apply (create_stocks_reconciles scenario_feed ["A"; "B"; "C"]
           scenario_stocks ["C"]).
  - exact scenario_catalog_distinct.
  - reflexivity.
Defined.

(** C2, as the code has it.  Whenever [create_stocks] returns, it has
    emitted for an identifier as many stock records as the catalog lists
    it: exactly one for a catalog of distinct identifiers, whatever the
    feed repeats.  [create_prices] (of either marketplace) removes nothing:
    whenever it returns, it has emitted for a listed identifier one price
    record for every feed row with that code, and none for an identifier
    that is not listed.  Each of the three functions is taken on its own
    return. *)
Theorem records_per_identifier (feed : list watch) (offer_ids : list string)
    (x : string) :
  (forall (stocks : list Seller.stock) (left : list string),
     Seller.create_stocks feed offer_ids = (Ok stocks, left) ->
     count_occ string_dec (map Seller.stock_offer_id stocks) x
     = count_occ string_dec offer_ids x
     /\ (List.NoDup offer_ids -> In x offer_ids ->
         count_occ string_dec (map Seller.stock_offer_id stocks) x = 1%nat))
  /\ (forall prices : list Seller.price,
        Seller.create_prices feed offer_ids = Ok prices ->
        count_occ string_dec (map Seller.price_offer_id prices) x
        = (if contains x offer_ids
           then count_occ string_dec (map code_of feed) x else O))
  /\ (forall market_prices : list Market.price,
        Market.create_prices feed offer_ids = Ok market_prices ->
        count_occ string_dec (map Market.price_id market_prices) x
        = (if contains x offer_ids
           then count_occ string_dec (map code_of feed) x else O)).
Proof.
  split; [|split].
  - intros stocks left. unfold Seller.create_stocks.
    destruct (Seller.create_stocks_loop feed [] offer_ids)
      as [[new|e] ids'] eqn:Hloop; [|discriminate].
    intros [= <- <-].
    apply create_stocks_loop_spec in Hloop as (new' & Hnew & Hperm & _).
    simpl in Hnew. subst new'.
    assert (Hcount :
      count_occ string_dec
        (map Seller.stock_offer_id
           (new ++ map (fun offer_id => Seller.Stock offer_id 0) ids')) x
      = count_occ string_dec offer_ids x).
    { rewrite map_app, map_map. simpl. rewrite map_id.
      apply Permutation_count_occ, Hperm. }
    split; [exact Hcount|].
    intros Hnd Hx. rewrite Hcount. apply NoDup_count_occ'; assumption.
  - intros prices Hprices.
    apply seller_create_prices_loop_ids in Hprices. simpl in Hprices.
    rewrite Hprices. apply count_occ_filter.
  - intros market_prices Hmarket.
    apply market_create_prices_loop_ids in Hmarket. simpl in Hmarket.
    rewrite Hmarket. apply count_occ_filter.
Qed.

(** A feed that has the code ["A"] on two rows, with prices that
    seller.py converts and market.py refuses. *)
Lemma records_per_identifier_witness :
  let feed : list watch :=
    [ {[ "Код" := PyStr "A"; "Количество" := PyStr "5";
         "Цена" := PyStr "руб" ]};
      {[ "Код" := PyStr "A"; "Количество" := PyStr "7";
         "Цена" := PyStr "руб" ]} ] in
  (count_occ string_dec (map Seller.stock_offer_id [Seller.Stock "A" 5]) "A"
   = count_occ string_dec ["A"] "A"
   /\ (List.NoDup ["A"] -> In "A" ["A"] ->
       count_occ string_dec (map Seller.stock_offer_id [Seller.Stock "A" 5]) "A"
       = 1%nat))
  /\ count_occ string_dec
       (map Seller.price_offer_id
          [Seller.Price "UNKNOWN" "RUB" "A" "0" "";
           Seller.Price "UNKNOWN" "RUB" "A" "0" ""]) "A"
     = (if contains "A" ["A"]
        then count_occ string_dec (map code_of feed) "A" else O).
Proof.
  intros feed.
  pose proof (records_per_identifier feed ["A"] "A") as (Hstocks & Hprices & _).
  split.
  - exact (Hstocks [Seller.Stock "A" 5] [] eq_refl).
  - exact (Hprices _ eq_refl).
Defined.

(** C2 as stated fails for price records: with the code ["A"] on two feed
    rows and the catalog [["A"]], both [create_prices] emit two price
    records for ["A"]. *)
Lemma duplicate_codes_duplicate_prices :
  Seller.create_prices duplicate_feed ["A"]
  = Ok [Seller.Price "UNKNOWN" "RUB" "A" "0" "100";
        Seller.Price "UNKNOWN" "RUB" "A" "0" "120"]
  /\ Market.create_prices duplicate_feed ["A"]
     = Ok [Market.Price "A" (Market.PriceValue 100 "RUR");
           Market.Price "A" (Market.PriceValue 120 "RUR")]
  /\ ~ (exists prices,
          Seller.create_prices duplicate_feed ["A"] = Ok prices
          /\ (count_occ string_dec (map Seller.price_offer_id prices) "A" <= 1)%nat).
Proof.
  split; [reflexivity|]. split; [reflexivity|].
  intros (prices & Hprices & Hcount).
  vm_compute in Hprices. injection Hprices as <-.
  vm_compute in Hcount. lia.
Qed.

(** ** The batch timestamp of market.py *)

Lemma market_create_stocks_loop_stamped (warehouse_id date : string)
    (feed : list watch) :
  forall (stocks : list Market.stock) (ids : list string)
         (out : list Market.stock) (ids' : list string),
    Market.create_stocks_loop feed stocks ids warehouse_id date = (Ok out, ids') ->
    Forall (stamped date) stocks -> Forall (stamped date) out.
Proof.
  induction feed as [|row feed IH]; intros stocks ids out ids';
    cbn [Market.create_stocks_loop].
  - intros [= <- <-] H. exact H.
  - destruct (contains (str (get row "Код")) ids); [|apply IH].
    destruct (stock_of_count (get row "Количество")) as [q|e]; [|discriminate].
    destruct (remove (str (get row "Код")) ids) as [ids1|]; [|discriminate].
    intros Hloop Hstocks. apply (IH _ _ _ _ Hloop).
    apply Forall_app. split; [exact Hstocks|].
    constructor; [|constructor]. exists q. reflexivity.
Qed.

(** C7.  One call of [create_stocks] of market.py reads the clock once,
    on entry, whatever the feed and the catalog are and also when the call
    fails; every stock record it returns carries that one reading as its
    [updatedAt]. *)
Theorem create_stocks_single_timestamp (utcnow : nat -> string)
    (feed : list watch) (offer_ids : list string) (warehouse_id : string)
    (w : Market.world) :
  let run := Market.create_stocks utcnow feed offer_ids warehouse_id w in
  let date := (utcnow (Market.ticks w) ++ "Z")%string in
  Market.ticks (snd run) = S (Market.ticks w)
  /\ Market.requests (snd run) = Market.requests w
  /\ forall stocks, fst (fst run) = Ok stocks -> Forall (stamped date) stocks.
Proof.
  intros run date. unfold run, Market.create_stocks. fold date.
  destruct (Market.create_stocks_loop feed [] offer_ids warehouse_id date)
    as [[new|e] ids'] eqn:Hloop; simpl.
  - split; [reflexivity|]. split; [reflexivity|]. intros stocks [= <-].
    apply Forall_app. split.
    + apply (market_create_stocks_loop_stamped _ _ _ _ _ _ _ Hloop).
      constructor.
    + apply List.Forall_forall. intros r Hr.
      apply in_map_iff in Hr as (id & <- & _). exists 0. reflexivity.
  - split; [reflexivity|]. split; [reflexivity|]. discriminate.
Qed.

(** The theorem at the scenario of the design document, with a clock
    that moves at every reading. *)
Lemma create_stocks_single_timestamp_witness :
  let utcnow := fun n : nat =>
    match n with O => "2024-01-01T00:00:00" | _ => "2024-01-01T00:00:01" end in
  Forall (stamped "2024-01-01T00:00:00Z")
    [Market.Stock "A" "wh" [Market.Item 100 "FIT" "2024-01-01T00:00:00Z"];
     Market.Stock "B" "wh" [Market.Item 0 "FIT" "2024-01-01T00:00:00Z"];
     Market.Stock "C" "wh" [Market.Item 0 "FIT" "2024-01-01T00:00:00Z"]].
Proof.
  intros utcnow.
  apply (proj2 (proj2 (create_stocks_single_timestamp utcnow scenario_feed
                         ["A"; "B"; "C"] "wh" (Market.World [] 0)))).
  reflexivity.
Defined.

(** ** The upload loop of market.py *)

Section Upload.

Variable srv : Market.server.

Lemma for_each_all_accepted (chunks : list (list Market.stock)) :
  forall w : Market.world,
    (forall k, (k < length chunks)%nat ->
               accepted srv (Market.requests w) chunks k) ->
    IO.for_each (Market.update_stocks srv) chunks w
    = (Some (Ok tt),
       Market.World (Market.requests w ++ puts chunks) (Market.ticks w)).
Proof.
  induction chunks as [|c chunks IH]; intros [h t] Hacc;
    cbn [IO.for_each Market.requests Market.ticks] in *.
  - unfold IO.ret, puts. simpl. rewrite app_nil_r. reflexivity.
  - unfold IO.bind, Market.update_stocks, Market.call.
    cbn [Market.requests Market.ticks].
    pose proof (Hacc O ltac:(simpl; lia)) as H0.
    unfold accepted in H0. simpl in H0. rewrite app_nil_r in H0.
    rewrite H0, IH; cbn [Market.requests Market.ticks].
    + unfold puts. simpl. rewrite <- app_assoc. reflexivity.
    + intros k Hk. pose proof (Hacc (S k) ltac:(simpl; lia)) as Hk'.
      unfold accepted in *. simpl in Hk'.
      rewrite <- app_assoc. exact Hk'.
Qed.

Lemma for_each_first_rejected (pre : list (list Market.stock))
    (c : list Market.stock) (post : list (list Market.stock)) (e : exn) :
  forall w : Market.world,
    (forall k, (k < length pre)%nat -> accepted srv (Market.requests w) pre k) ->
    Market.put_stocks srv (Market.requests w ++ puts pre) c = Raise e ->
    IO.for_each (Market.update_stocks srv) (pre ++ c :: post) w
    = (Some (Raise e),
       Market.World (Market.requests w ++ puts (pre ++ [c]))
                    (Market.ticks w)).
Proof.
  induction pre as [|c0 pre IH]; intros [h t] Hacc Hc;
    cbn [IO.for_each Market.requests Market.ticks app] in *;
    unfold IO.bind, Market.update_stocks, Market.call;
    cbn [Market.requests Market.ticks].
  - unfold puts in Hc. simpl in Hc. rewrite app_nil_r in Hc.
    rewrite Hc. reflexivity.
  - pose proof (Hacc O ltac:(simpl; lia)) as H0.
    unfold accepted in H0. simpl in H0. rewrite app_nil_r in H0.
    rewrite H0, IH; cbn [Market.requests Market.ticks].
    + unfold puts. simpl. rewrite <- app_assoc. reflexivity.
    + intros k Hk. pose proof (Hacc (S k) ltac:(simpl; lia)) as Hk'.
      unfold accepted in *. simpl in Hk'.
      rewrite <- app_assoc. exact Hk'.
    + unfold puts in *. simpl in Hc. rewrite <- app_assoc. exact Hc.
Qed.

End Upload.

(** C6.  Once the catalog is fetched and the stock records are built,
    [upload_stocks] of market.py cuts the records into chunks of 2000 (so
    2500 records give a chunk of 2000 and a chunk of 500) and sends one
    request per chunk, in chunk order.  When every chunk is accepted all
    the requests are issued and the records are returned.  When the chunk
    [c] is the first one the campaign rejects, the exception of that
    request is the outcome of [upload_stocks], the requests issued are
    those of the chunks before [c], which were accepted and are followed by
    no request that takes them back, and that of [c]; no later chunk is
    sent. *)
Theorem upload_stocks_chunks (fuel : nat) (srv : Market.server)
    (utcnow : nat -> string) (feed : list watch) (warehouse_id : string)
    (w w1 w2 : Market.world) (offer_ids left : list string)
    (stocks : list Market.stock) :
  Market.get_offer_ids fuel srv w = (Some (Ok offer_ids), w1) ->
  Market.create_stocks utcnow feed offer_ids warehouse_id w1
  = (Ok stocks, left, w2) ->
  let upload := Market.upload_stocks fuel srv utcnow feed warehouse_id w in
  let not_empty :=
    List.filter
      (fun stock =>
         negb (Market.item_count
                 (hd (Market.Item 0 "" "") (Market.stock_items stock)) =? 0))
      stocks in
  let h := Market.requests w2 in
  exists chunks : list (list Market.stock),
    divide stocks 2000 = Ok chunks
    /\ concat chunks = stocks
    /\ (length stocks = 2500%nat -> map (@length _) chunks = [2000; 500]%nat)
    /\ ((forall k, (k < length chunks)%nat -> accepted srv h chunks k) ->
        upload = (Some (Ok (not_empty, stocks)),
                  Market.World (h ++ puts chunks) (Market.ticks w2)))
    /\ (forall pre c post e,
          chunks = pre ++ c :: post ->
          (forall k, (k < length pre)%nat -> accepted srv h pre k) ->
          Market.put_stocks srv (h ++ puts pre) c = Raise e ->
          upload = (Some (Raise e),
                    Market.World (h ++ puts (pre ++ [c])) (Market.ticks w2))).
Proof.
  intros Hget Hcreate upload not_empty h.
  set (step := Z.to_nat 2000).
  set (chunks := map (fun i => slice stocks i (i + step))
                     (range_from (length stocks) 0 (length stocks) step)).
  assert (Hdiv : divide stocks 2000 = Ok chunks) by reflexivity.
  assert (Hstep : (0 < step)%nat) by (unfold step; lia).
  assert (Hupload : upload =
            match IO.for_each (Market.update_stocks srv) chunks w2 with
            | (Some (Ok _), w3) => (Some (Ok (not_empty, stocks)), w3)
            | (Some (Raise e), w3) => (Some (Raise e), w3)
            | (None, w3) => (None, w3)
            end).
  { unfold upload, Market.upload_stocks, IO.bind at 1. rewrite Hget.
    unfold IO.bind at 1. rewrite Hcreate.
    unfold IO.bind at 1, IO.lift at 1. rewrite Hdiv.
    unfold IO.bind, IO.ret. reflexivity. }
  exists chunks. split; [exact Hdiv|]. split; [|split; [|split]].
  - unfold chunks. rewrite chunks_concat by (exact Hstep || lia). reflexivity.
  - intros Hlen. unfold chunks. rewrite Hlen.
    assert (Hstarts : range_from 2500 0 2500 step = [0; 2000]%nat)
      by (vm_compute; reflexivity).
    rewrite Hstarts. cbn [map].
    change 2000%nat with (0 + step)%nat at 1.
    change (slice stocks 2000) with (slice stocks (2000 + 0)).
    rewrite !slice_length, Hlen by exact Hstep.
    vm_compute. reflexivity.
  - intros Hacc. rewrite Hupload, for_each_all_accepted by exact Hacc.
    reflexivity.
  - intros pre c post e Hchunks Hacc Hc.
    rewrite Hupload, Hchunks, (for_each_first_rejected srv pre c post e)
      by assumption.
    reflexivity.
Qed.

(** The theorem at that campaign: the one chunk is sent and rejected. *)
Lemma upload_stocks_chunks_witness :
  Market.upload_stocks 1 rejecting_campaign (fun _ => "2024-01-01T00:00:00")
    scenario_feed "wh" (Market.World [] 0)
  = (Some (Raise (HTTPError 500)),
     Market.World [Market.OfferMappingEntries "";
                   Market.PutStocks scenario_market_stocks] 1).
Proof.
  destruct (upload_stocks_chunks 1 rejecting_campaign
              (fun _ => "2024-01-01T00:00:00") scenario_feed "wh"
              (Market.World [] 0)
              (Market.World [Market.OfferMappingEntries ""] 0)
              (Market.World [Market.OfferMappingEntries ""] 1)
              ["A"; "B"; "C"] ["C"] scenario_market_stocks
              eq_refl eq_refl)
    as (chunks & Hdiv & _ & _ & _ & Hrejected).
  injection Hdiv as <-.
  apply (Hrejected [] scenario_market_stocks [] (HTTPError 500)).
  - reflexivity.
  - intros k Hk. inversion Hk.
  - reflexivity.
Defined.

(** ** The catalog pager of seller.py *)

Section Pager.

Variable srv : Seller.server.

Lemma iteration_shift (k : nat) (s : pager_state) :
  iteration srv (S k) s =
  match turn srv s with
  | Ok (_, s') => iteration srv k s'
  | Raise e => Raise e
  end.
Proof.
  induction k as [|k IH].
  - simpl. destruct (turn srv s) as [[p s']|e]; reflexivity.
  - change (iteration srv (S (S k)) s)
      with (match iteration srv (S k) s with
            | Ok (_, s') => turn srv s'
            | Raise e => Raise e
            end).
    rewrite IH. destruct (turn srv s) as [[p s']|e]; reflexivity.
Qed.

Lemma loop_unfold (fuel : nat) (s : pager_state) :
  Seller.get_offer_ids_loop (S fuel) srv (st_last_id s) (st_products s)
    (st_requests s) =
  match turn srv s with
  | Ok (p, s') =>
      if total_reached (p, s')
      then (Some (Ok (st_products s')), st_requests s')
      else Seller.get_offer_ids_loop fuel srv (st_last_id s')
             (st_products s') (st_requests s')
  | Raise e =>
      (Some (Raise e), st_requests s ++ [Seller.ProductList (st_last_id s)])
  end.
Proof.
  cbn [Seller.get_offer_ids_loop].
  unfold IO.bind, Seller.get_product_list, turn, total_reached.
  destruct (Seller.product_list srv (st_requests s) (st_last_id s)) as [p|e];
    [|reflexivity].
  cbn [fst snd st_products st_last_id st_requests].
  destruct (Seller.page_total p) as [t|]; [|reflexivity].
  destruct (t =? Z.of_nat (length (st_products s ++ Seller.page_items p)));
    reflexivity.
Qed.

Lemma loop_returns_at (k : nat) :
  forall (s : pager_state) (ps : Seller.page * pager_state) (fuel : nat),
    iteration srv k s = Ok ps -> total_reached ps = true ->
    (forall j, (j < k)%nat -> ~ reached_at srv j s) ->
    (k < fuel)%nat ->
    loop_from srv fuel s = (Some (Ok (st_products (snd ps))), st_requests (snd ps)).
Proof.
  induction k as [|k IH]; intros s ps fuel Hit Hps Hfirst Hfuel;
    (destruct fuel as [|fuel]; [lia|]); unfold loop_from; rewrite loop_unfold.
  - simpl in Hit. rewrite Hit. destruct ps as [p s']. rewrite Hps. reflexivity.
  - rewrite iteration_shift in Hit.
    destruct (turn srv s) as [[p s']|e] eqn:Hturn; [|discriminate].
    destruct (total_reached (p, s')) eqn:Hnow.
    + exfalso. apply (Hfirst O); [lia|]. exists (p, s'). split; assumption.
    + apply (IH s' ps fuel Hit Hps); [|lia].
      intros j Hj (ps' & Hit' & Hps'). apply (Hfirst (S j)); [lia|].
      exists ps'. rewrite iteration_shift, Hturn. split; assumption.
Qed.

Lemma loop_returns_inv (fuel : nat) :
  forall (s : pager_state) out h',
    loop_from srv fuel s = (Some (Ok out), h') ->
    exists k ps, (k < fuel)%nat /\ iteration srv k s = Ok ps
                 /\ total_reached ps = true
                 /\ out = st_products (snd ps) /\ h' = st_requests (snd ps).
Proof.
  induction fuel as [|fuel IH]; intros s out h'; [discriminate|].
  unfold loop_from. rewrite loop_unfold.
  destruct (turn srv s) as [[p s']|e] eqn:Hturn; [|discriminate].
  destruct (total_reached (p, s')) eqn:Hnow.
  - intros [= <- <-]. exists O, (p, s'). simpl. rewrite Hturn.
    repeat split; (lia || assumption || reflexivity).
  - intros Hloop. apply IH in Hloop as (k & ps & Hk & Hit & Hps & Hout & Hh).
    exists (S k), ps. rewrite iteration_shift, Hturn.
    repeat split; (lia || assumption).
Qed.

Lemma loop_raises_inv (fuel : nat) :
  forall (s : pager_state) e h',
    loop_from srv fuel s = (Some (Raise e), h') ->
    exists k, (k < fuel)%nat /\ iteration srv k s = Raise e.
Proof.
  induction fuel as [|fuel IH]; intros s e h'; [discriminate|].
  unfold loop_from. rewrite loop_unfold.
  destruct (turn srv s) as [[p s']|e'] eqn:Hturn.
  - destruct (total_reached (p, s')); [discriminate|].
    intros Hloop. apply IH in Hloop as (k & Hk & Hit).
    exists (S k). rewrite iteration_shift, Hturn. split; [lia | exact Hit].
  - intros [= <- <-]. exists O. simpl. split; [lia | exact Hturn].
Qed.

Lemma loop_running (fuel : nat) :
  forall s : pager_state,
    (forall k, (k < fuel)%nat ->
       exists ps, iteration srv k s = Ok ps /\ total_reached ps = false) ->
    fst (loop_from srv fuel s) = None.
Proof.
  induction fuel as [|fuel IH]; intros s Hrun; [reflexivity|].
  unfold loop_from. rewrite loop_unfold.
  destruct (Hrun O ltac:(lia)) as ([p s'] & Hit & Hps). simpl in Hit.
  rewrite Hit, Hps. apply IH. intros k Hk.
  destruct (Hrun (S k) ltac:(lia)) as (ps & Hit' & Hps').
  rewrite iteration_shift, Hit in Hit'. exists ps. split; assumption.
Qed.

Lemma reached_first (k : nat) :
  forall s : pager_state,
    reached_at srv k s ->
    exists k0 ps, (k0 <= k)%nat /\ iteration srv k0 s = Ok ps
                  /\ total_reached ps = true
                  /\ forall j, (j < k0)%nat -> ~ reached_at srv j s.
Proof.
  induction k as [|k IH]; intros s (ps & Hit & Hps).
  - exists O, ps. repeat split; (lia || assumption || (intros; lia)).
  - pose proof Hit as Hit'. rewrite iteration_shift in Hit'.
    destruct (turn srv s) as [[p s']|e] eqn:Hturn; [|discriminate].
    destruct (total_reached (p, s')) eqn:Hnow.
    + exists O, (p, s'). simpl. rewrite Hturn.
      repeat split; (lia || assumption || (intros; lia)).
    + destruct (IH s') as (k0 & ps0 & Hk0 & Hit0 & Hps0 & Hfirst).
      { exists ps. split; assumption. }
      exists (S k0), ps0. rewrite iteration_shift, Hturn.
      repeat split; try (lia || assumption).
      intros [|j] Hj (ps' & Hitj & Hpsj).
      * simpl in Hitj. rewrite Hturn in Hitj. injection Hitj as <-.
        congruence.
      * rewrite iteration_shift, Hturn in Hitj.
        apply (Hfirst j); [lia|]. exists ps'. split; assumption.
Qed.

End Pager.

(** C10.  [get_offer_ids] of seller.py returns exactly when, at some
    iteration, the count of the items accumulated equals the [total] of the
    page just received.  At the first such iteration it returns the
    [offer_id] of every item accumulated, pages in the order received, and
    any fuel beyond that iteration gives this result.  When every request
    is answered and the count never equals the total, the loop is still
    running after any number of iterations.  The loop has no other exit; an
    outcome other than these is the exception of a page request. *)
Theorem get_offer_ids_exit (srv : Seller.server) (h : list Seller.request) :
  let start := PagerState "" [] h in
  ((exists fuel ids h', Seller.get_offer_ids fuel srv h = (Some (Ok ids), h'))
   <-> exists k, reached_at srv k start)
  /\ (forall k ps,
        iteration srv k start = Ok ps -> total_reached ps = true ->
        (forall j, (j < k)%nat -> ~ reached_at srv j start) ->
        forall fuel, (k < fuel)%nat ->
          Seller.get_offer_ids fuel srv h
          = (Some (Ok (map Seller.product_offer_id (st_products (snd ps)))),
             st_requests (snd ps)))
  /\ ((forall k, exists ps,
         iteration srv k start = Ok ps /\ total_reached ps = false) ->
      forall fuel, fst (Seller.get_offer_ids fuel srv h) = None)
  /\ (forall fuel e h',
        Seller.get_offer_ids fuel srv h = (Some (Raise e), h') ->
        exists k, (k < fuel)%nat /\ iteration srv k start = Raise e).
Proof.
  intros start.
  assert (Hrun : forall fuel,
            Seller.get_offer_ids fuel srv h =
            match loop_from srv fuel start with
            | (Some (Ok product_list), h') =>
                (Some (Ok (map Seller.product_offer_id product_list)), h')
            | (Some (Raise e), h') => (Some (Raise e), h')
            | (None, h') => (None, h')
            end) by reflexivity.
  assert (Hat : forall k ps,
            iteration srv k start = Ok ps -> total_reached ps = true ->
            (forall j, (j < k)%nat -> ~ reached_at srv j start) ->
            forall fuel, (k < fuel)%nat ->
              Seller.get_offer_ids fuel srv h
              = (Some (Ok (map Seller.product_offer_id (st_products (snd ps)))),
                 st_requests (snd ps))).
  { intros k ps Hit Hps Hfirst fuel Hfuel.
    rewrite Hrun, (loop_returns_at srv k start ps fuel) by assumption.
    reflexivity. }
  split; [split|split; [exact Hat|split]].
  - intros (fuel & ids & h' & Hget). rewrite Hrun in Hget.
    destruct (loop_from srv fuel start) as [[[out|e]|] h1] eqn:Hloop;
      try discriminate.
    apply loop_returns_inv in Hloop as (k & ps & _ & Hit & Hps & _).
    exists k, ps. split; assumption.
  - intros (k & Hk).
    destruct (reached_first srv k start Hk) as (k0 & ps & _ & Hit & Hps & Hfirst).
    exists (S k0). eexists. eexists.
    apply (Hat k0 ps Hit Hps Hfirst). lia.
  - intros Hnever fuel. rewrite Hrun.
    pose proof (loop_running srv fuel start (fun k _ => Hnever k)) as Hloop.
    destruct (loop_from srv fuel start) as [[[out|e]|] h1];
      simpl in Hloop; try discriminate.
    reflexivity.
  - intros fuel e h' Hget. rewrite Hrun in Hget.
    destruct (loop_from srv fuel start) as [[[out|e']|] h1] eqn:Hloop;
      try discriminate.
    injection Hget as <- <-. eapply loop_raises_inv, Hloop.
Qed.

(** The theorem at the first account: the first page reaches the total. *)
Lemma get_offer_ids_exit_witness :
  Seller.get_offer_ids 3 two_products []
  = (Some (Ok ["A"; "B"]), [Seller.ProductList ""]).
Proof.
  apply (proj1 (proj2 (get_offer_ids_exit two_products [])) O
           (Seller.Page [Seller.Product 1 "A"; Seller.Product 2 "B"]
                        (Some 2) "B",
            PagerState "B" [Seller.Product 1 "A"; Seller.Product 2 "B"]
                       [Seller.ProductList ""])).
  - reflexivity.
  - reflexivity.
  - intros j Hj. inversion Hj.
  - lia.
Defined.

Lemma no_total_products (k : nat) :
  exists s, iteration no_total k (PagerState "" [] []) =
            Ok (Seller.Page [Seller.Product 1 "A"] None "A", s).
Proof.
  induction k as [|k [s IH]]; simpl.
  - eexists. reflexivity.
  - rewrite IH. eexists. reflexivity.
Qed.

Example get_offer_ids_no_total (fuel : nat) :
  fst (Seller.get_offer_ids fuel no_total []) = None.
Proof.
  assert (Hloop : fst (loop_from no_total fuel (PagerState "" [] [])) = None).
  { apply loop_running. intros k _.
    destruct (no_total_products k) as [s Hs].
    eexists. split; [exact Hs | reflexivity]. }
  unfold Seller.get_offer_ids, IO.bind.
  change (Seller.get_offer_ids_loop fuel no_total "" [] [])
    with (loop_from no_total fuel (PagerState "" [] [])).
  destruct (loop_from no_total fuel (PagerState "" [] [])) as [[[o|e]|] h'];
    simpl in Hloop; try discriminate.
  reflexivity.
Qed.

(** ** Two runs in succession *)

Lemma loop_same_catalog (srv : Seller.server) :
  catalog_unchanged srv ->
  forall (fuel1 fuel2 : nat) (last_id : string) (acc : list Seller.product)
         (h g : list Seller.request) o1 h1 o2 g1,
    Seller.get_offer_ids_loop fuel1 srv last_id acc h = (Some (Ok o1), h1) ->
    Seller.get_offer_ids_loop fuel2 srv last_id acc g = (Some (Ok o2), g1) ->
    o1 = o2.
Proof.
  intros Hsame. induction fuel1 as [|fuel1 IH];
    intros [|fuel2] last_id acc h g o1 h1 o2 g1; try discriminate.
  cbn [Seller.get_offer_ids_loop].
  unfold IO.bind, Seller.get_product_list. rewrite (Hsame h g).
  destruct (Seller.product_list srv g last_id) as [p|e]; [|discriminate].
  destruct (Seller.page_total p) as [t|]; [|apply IH].
  destruct (t =? Z.of_nat (length (acc ++ Seller.page_items p))); [|apply IH].
  unfold IO.ret. congruence.
Qed.

Lemma upload_stocks_inv (fuel : nat) (srv : Seller.server) (feed : list watch)
    (h h' : list Seller.request) (r : list Seller.stock * list Seller.stock) :
  Seller.upload_stocks fuel srv feed h = (Some (Ok r), h') ->
  exists product_list h1,
    Seller.get_offer_ids_loop fuel srv "" [] h = (Some (Ok product_list), h1)
    /\ fst (Seller.create_stocks feed
              (map Seller.product_offer_id product_list)) = Ok (snd r)
    /\ fst r = List.filter (fun s => negb (Seller.stock_stock s =? 0)) (snd r).
Proof.
  unfold Seller.upload_stocks, Seller.get_offer_ids, IO.bind, IO.lift, IO.ret.
  destruct (Seller.get_offer_ids_loop fuel srv "" [] h) as [[[pl|e]|] h1];
    try discriminate.
  destruct (fst (Seller.create_stocks feed (map Seller.product_offer_id pl)))
    as [stocks|e] eqn:Hcreate; [|discriminate].
  destruct (divide stocks 100) as [chunks|e]; [|discriminate].
  destruct (IO.for_each (Seller.update_stocks srv) chunks h1) as [[[u|e]|] h2];
    try discriminate.
  intros [= <- <-]. exists pl, h1. repeat split; reflexivity || exact Hcreate.
Qed.

Lemma upload_prices_inv (fuel : nat) (srv : Seller.server) (feed : list watch)
    (h h' : list Seller.request) (prices : list Seller.price) :
  Seller.upload_prices fuel srv feed h = (Some (Ok prices), h') ->
  exists product_list h1,
    Seller.get_offer_ids_loop fuel srv "" [] h = (Some (Ok product_list), h1)
    /\ Seller.create_prices feed (map Seller.product_offer_id product_list)
       = Ok prices.
Proof.
  unfold Seller.upload_prices, Seller.get_offer_ids, IO.bind, IO.lift, IO.ret.
  destruct (Seller.get_offer_ids_loop fuel srv "" [] h) as [[[pl|e]|] h1];
    try discriminate.
  destruct (Seller.create_prices feed (map Seller.product_offer_id pl))
    as [ps|e] eqn:Hcreate; [|discriminate].
  destruct (divide ps 1000) as [chunks|e]; [|discriminate].
  destruct (IO.for_each (Seller.update_price srv) chunks h1) as [[[u|e]|] h2];
    try discriminate.
  intros [= <- <-]. exists pl, h1. split; reflexivity || exact Hcreate.
Qed.

(** C9.  With an unchanged feed and an unchanged catalog, [upload_stocks]
    and [upload_prices] of seller.py run twice in succession return the
    same stock records and the same price records: the records are those
    that [create_stocks] and [create_prices] build from the feed and the
    identifiers the pager read, and each run works on a list of identifiers
    of its own. *)
Theorem upload_twice_same_records (srv : Seller.server) (feed : list watch)
    (fuel1 fuel2 fuel3 fuel4 : nat) (h h1 h2 h3 h4 : list Seller.request)
    (stocks1 stocks2 : list Seller.stock * list Seller.stock)
    (prices1 prices2 : list Seller.price) :
  catalog_unchanged srv ->
  Seller.upload_stocks fuel1 srv feed h = (Some (Ok stocks1), h1) ->
  Seller.upload_prices fuel2 srv feed h1 = (Some (Ok prices1), h2) ->
  Seller.upload_stocks fuel3 srv feed h2 = (Some (Ok stocks2), h3) ->
  Seller.upload_prices fuel4 srv feed h3 = (Some (Ok prices2), h4) ->
  stocks1 = stocks2
  /\ prices1 = prices2
  /\ exists offer_ids : list string,
       fst (Seller.create_stocks feed offer_ids) = Ok (snd stocks1)
       /\ Seller.create_prices feed offer_ids = Ok prices1.
Proof.
  intros Hsame Hs1 Hp1 Hs2 Hp2.
  apply upload_stocks_inv in Hs1 as (pl1 & g1 & Hl1 & Hc1 & Hf1).
  apply upload_prices_inv in Hp1 as (pl2 & g2 & Hl2 & Hc2).
  apply upload_stocks_inv in Hs2 as (pl3 & g3 & Hl3 & Hc3 & Hf3).
  apply upload_prices_inv in Hp2 as (pl4 & g4 & Hl4 & Hc4).
  pose proof (loop_same_catalog srv Hsame _ _ _ _ _ _ _ _ _ _ Hl1 Hl2) as <-.
  pose proof (loop_same_catalog srv Hsame _ _ _ _ _ _ _ _ _ _ Hl1 Hl3) as <-.
  pose proof (loop_same_catalog srv Hsame _ _ _ _ _ _ _ _ _ _ Hl1 Hl4) as <-.
  split; [|split].
  - destruct stocks1 as [n1 s1], stocks2 as [n2 s2]. simpl in *.
    assert (s1 = s2) by congruence. subst. reflexivity.
  - congruence.
  - exists (map Seller.product_offer_id pl1). split; assumption.
Qed.

Lemma two_products_unchanged : catalog_unchanged two_products.
Proof. intros h h' last_id. reflexivity. Defined.

(** The theorem at the account with two products and a feed of one row. *)
Lemma upload_twice_same_records_witness :
  let feed : list watch :=
    [ {[ "Код" := PyStr "A"; "Количество" := PyStr "5";
         "Цена" := PyStr "100.00 руб" ]} ] in
  let stocks := ([Seller.Stock "A" 5], [Seller.Stock "A" 5; Seller.Stock "B" 0]) in
  let prices := [Seller.Price "UNKNOWN" "RUB" "A" "0" "100"] in
  stocks = stocks
  /\ prices = prices
  /\ exists offer_ids : list string,
       fst (Seller.create_stocks feed offer_ids) = Ok (snd stocks)
       /\ Seller.create_prices feed offer_ids = Ok prices.
Proof.
  intros feed stocks prices.
  apply (upload_twice_same_records two_products feed 2 2 2 2
           []
           [Seller.ProductList ""; Seller.ImportStocks (snd stocks)]
           [Seller.ProductList ""; Seller.ImportStocks (snd stocks);
            Seller.ProductList ""; Seller.ImportPrices prices]
           [Seller.ProductList ""; Seller.ImportStocks (snd stocks);
            Seller.ProductList ""; Seller.ImportPrices prices;
            Seller.ProductList ""; Seller.ImportStocks (snd stocks)]
           [Seller.ProductList ""; Seller.ImportStocks (snd stocks);
            Seller.ProductList ""; Seller.ImportPrices prices;
            Seller.ProductList ""; Seller.ImportStocks (snd stocks);
            Seller.ProductList ""; Seller.ImportPrices prices]
           stocks stocks prices prices two_products_unchanged);
    reflexivity.
Defined.

(** ** The list [offer_ids] after [create_stocks] *)

Lemma create_prices_loop_unlisted (offer_ids : list string)
    (feed : list watch) :
  (forall row, In row feed -> ~ In (code_of row) offer_ids) ->
  forall prices, Seller.create_prices_loop feed prices offer_ids = Ok prices.
Proof.
  induction feed as [|row feed IH]; intros Hfeed prices;
    cbn [Seller.create_prices_loop]; [reflexivity|].
  fold (code_of row).
  destruct (contains (code_of row) offer_ids) eqn:Hin.
  - apply contains_In in Hin. exfalso.
    apply (Hfeed row); [left; reflexivity | exact Hin].
  - apply IH. intros row' Hrow'. apply Hfeed. right. exact Hrow'.
Qed.

(** [create_stocks] leaves in the caller's list only the identifiers that
    no feed row has, so that [create_prices] on that list, as [main] of
    seller.py calls it, builds no price record at all. *)
Lemma create_prices_after_create_stocks (feed : list watch)
    (offer_ids left : list string) (stocks : list Seller.stock) :
  List.NoDup offer_ids ->
  Seller.create_stocks feed offer_ids = (Ok stocks, left) ->
  Seller.create_prices feed left = Ok [].
Proof.
  intros Hnd. unfold Seller.create_stocks.
  destruct (Seller.create_stocks_loop feed [] offer_ids) as [[new|e] ids'] eqn:Hloop;
    [|discriminate].
  intros [= <- <-].
  apply create_stocks_loop_spec in Hloop as (new' & _ & _ & Hq).
  destruct (Hq Hnd) as [_ Hleft].
  apply create_prices_loop_unlisted. intros row Hrow Hin.
  apply (Hleft _ Hin row Hrow). reflexivity.
Qed.

(** C4 fails on the code.  [create_stocks] removes the matched identifiers
    from the list object its caller passed: after the call on the catalog
    [["A"; "B"]] the caller's list is [["B"]].  [main] of seller.py passes
    that same list to [create_prices] next, which therefore builds no price
    record, and [main] sends no price request, where [upload_prices], which
    fetches the catalog anew, sends the price of ["A"]. *)
Theorem create_stocks_changes_offer_ids :
  Seller.create_stocks one_row_feed ["A"; "B"]
  = (Ok [Seller.Stock "A" 5; Seller.Stock "B" 0], ["B"])
  /\ Seller.create_prices one_row_feed ["A"; "B"]
     = Ok [Seller.Price "UNKNOWN" "RUB" "A" "0" "100"]
  /\ Seller.create_prices one_row_feed
       (snd (Seller.create_stocks one_row_feed ["A"; "B"])) = Ok []
  /\ Seller.main 2 two_products (Ok one_row_feed) []
     = (Some (Ok tt),
        [Seller.ProductList "";
         Seller.ImportStocks [Seller.Stock "A" 5; Seller.Stock "B" 0]])
  /\ Seller.upload_prices 2 two_products one_row_feed []
     = (Some (Ok [Seller.Price "UNKNOWN" "RUB" "A" "0" "100"]),
        [Seller.ProductList "";
         Seller.ImportPrices [Seller.Price "UNKNOWN" "RUB" "A" "0" "100"]]).
Proof. repeat split; reflexivity. Qed.

(** * Further properties of the code *)

(** ** [divide]: number of chunks, step sign *)

Lemma range_from_lt (fuel i stop step j : nat) :
  In j (range_from fuel i stop step) -> (j < stop)%nat.
Proof.
  revert i. induction fuel as [|fuel IH]; intros i; simpl; [tauto|].
  destruct (Nat.ltb_spec i stop); simpl; [|tauto].
  intros [<- | Hj]; [assumption | apply (IH _ Hj)].
Qed.

(** X1.  For [n >= 1], [divide] yields ceil(len / n) chunks, none of them
    empty and none longer than [n]: an upload loop over the chunks sends
    that many requests, and never an empty one. *)
Theorem divide_chunk_count {A : Type} (lst : list A) (n : Z)
    (chunks : list (list A)) :
  1 <= n ->
  divide lst n = Ok chunks ->
  Z.of_nat (length chunks) = (Z.of_nat (length lst) + n - 1) / n
  /\ Forall (fun c => c <> [] /\ Z.of_nat (length c) <= n) chunks.
Proof.
  intros Hn. unfold divide.
  destruct (Z.eqb_spec n 0); [lia|]. destruct (Z.ltb_spec n 0); [lia|].
  set (step := Z.to_nat n). assert (Hstep : (0 < step)%nat) by lia.
  set (starts := range_from (length lst) 0 (length lst) step).
  intros [= <-]. rewrite length_map. split.
  - assert (Hlen : forall k, (k < length starts)%nat
                             <-> (k * step < length lst)%nat).
    { intros k. unfold starts.
      rewrite range_from_length by (exact Hstep || lia). lia. }
    set (m := length starts) in *.
    assert (Hup : ~ (m * step < length lst)%nat) by (rewrite <- Hlen; lia).
    assert (Hlow : (0 < m)%nat -> (Nat.pred m * step < length lst)%nat)
      by (intros Hm; apply Hlen; lia).
    apply Z.div_unique with
      (r := Z.of_nat (length lst) + n - 1 - n * Z.of_nat m).
    + left. destruct m as [|m'].
      * assert (length lst = O) by lia. lia.
      * specialize (Hlow ltac:(lia)). simpl in Hlow. nia.
    + lia.
  - apply List.Forall_forall. intros c Hc.
    apply in_map_iff in Hc as (i & <- & Hi).
    apply range_from_lt in Hi.
    rewrite slice_length by exact Hstep.
    split; [|lia].
    intros Hnil. apply (f_equal (@length A)) in Hnil.
    rewrite slice_length in Hnil by exact Hstep. simpl in Hnil. lia.
Qed.

(** The theorem at 2500 records and the batch size 2000 of market.py. *)
Lemma divide_chunk_count_witness :
  Z.of_nat (length [repeat tt 2000; repeat tt 500])
  = (Z.of_nat (length (repeat tt 2500)) + 2000 - 1) / 2000
  /\ Forall (fun c => c <> [] /\ Z.of_nat (length c) <= 2000)
       [repeat tt 2000; repeat tt 500].
Proof.
  apply (divide_chunk_count (repeat tt 2500) 2000); [lia|].
  vm_compute. reflexivity.
Defined.

(** X2.  The sign of the chunk size decides what [divide] does with the
    list: a zero size raises the [ValueError] of [range], a negative size
    yields no chunk at all, and the chunks give the list back exactly when
    the size is positive or the list is empty: with a negative size every
    record is dropped without an error. *)
Theorem divide_step_sign {A : Type} (lst : list A) (n : Z) :
  (n = 0 -> divide lst n = Raise ValueError)
  /\ (n < 0 -> divide lst n = Ok [])
  /\ (forall chunks, divide lst n = Ok chunks ->
        n <> 0 /\ (concat chunks = lst <-> 0 < n \/ lst = [])).
Proof.
  unfold divide. split; [|split].
  - intros ->. reflexivity.
  - intros Hn. destruct (Z.eqb_spec n 0); [lia|].
    destruct (Z.ltb_spec n 0); [reflexivity | lia].
  - intros chunks. destruct (Z.eqb_spec n 0); [discriminate|].
    split; [assumption|]. destruct (Z.ltb_spec n 0).
    + injection H as <-. simpl. split.
      * intros <-. right. reflexivity.
      * intros [Hn | ->]; [lia | reflexivity].
    + injection H as <-. split; [intros _; left; lia|]. intros _.
      rewrite chunks_concat by lia. reflexivity.
Qed.

(** The theorem at a negative size: the three records are dropped. *)
Lemma divide_step_sign_witness :
  divide [1; 2; 3] (-2) = Ok []
  /\ ~ (concat (@nil (list Z)) = [1; 2; 3]).
Proof.
  pose proof (divide_step_sign [1; 2; 3] (-2)) as (_ & Hneg & Hok).
  split; [apply Hneg; lia|].
  intros Hcat. destruct (Hok [] (Hneg ltac:(lia))) as [_ Hiff].
  apply Hiff in Hcat. destruct Hcat; [lia | discriminate].
Defined.

(** ** [create_stocks]: when it returns, and what both marketplaces share *)

Lemma remove_listed (x : string) (l : list string) :
  In x l -> exists l', remove x l = Some l'.
Proof.
  induction l as [|y l IH]; simpl; [tauto|]. intros Hin.
  destruct (String.eqb_spec x y) as [-> | Hne]; [eexists; reflexivity|].
  destruct IH as (l' & ->); [intuition congruence|]. eexists. reflexivity.
Qed.

Lemma remove_incl (x : string) (l l' : list string) :
  remove x l = Some l' -> forall y, In y l' -> In y l.
Proof.
  intros Hrm y Hy. apply remove_Permutation in Hrm.
  apply (Permutation_in _ (Permutation_sym Hrm)). right. exact Hy.
Qed.

Lemma create_stocks_loop_returns (feed : list watch) :
  forall (stocks : list Seller.stock) (ids : list string),
    (forall row, In row feed -> In (code_of row) ids ->
       exists q, stock_of_count (get row "Количество") = Ok q) ->
    exists out ids', Seller.create_stocks_loop feed stocks ids = (Ok out, ids').
Proof.
  induction feed as [|row feed IH]; intros stocks ids Hq;
    cbn [Seller.create_stocks_loop]; [eexists; eexists; reflexivity|].
  fold (code_of row). destruct (contains (code_of row) ids) eqn:Hin.
  - apply contains_In in Hin.
    destruct (Hq row (or_introl eq_refl) Hin) as [q ->].
    destruct (remove_listed _ _ Hin) as [ids1 Hrm]. rewrite Hrm.
    apply IH. intros row' Hrow' Hin'. apply Hq; [right; exact Hrow'|].
    apply (remove_incl _ _ _ Hrm), Hin'.
  - apply IH. intros row' Hrow'. apply Hq. right. exact Hrow'.
Qed.

Lemma create_stocks_loop_raises (feed : list watch) :
  forall (stocks : list Seller.stock) (ids ids' : list string) (e : exn),
    Seller.create_stocks_loop feed stocks ids = (Raise e, ids') ->
    exists row, In row feed /\ In (code_of row) ids
                /\ stock_of_count (get row "Количество") = Raise e.
Proof.
  induction feed as [|row feed IH]; intros stocks ids ids' e;
    cbn [Seller.create_stocks_loop]; [discriminate|].
  fold (code_of row). destruct (contains (code_of row) ids) eqn:Hin.
  - apply contains_In in Hin.
    destruct (stock_of_count (get row "Количество")) as [q|e'] eqn:Hq.
    + destruct (remove_listed _ _ Hin) as [ids1 Hrm]. rewrite Hrm.
      intros Hloop. apply IH in Hloop as (row' & Hrow' & Hin' & He).
      exists row'. split; [right; exact Hrow'|]. split; [|exact He].
      apply (remove_incl _ _ _ Hrm), Hin'.
    + intros [= <- <-]. exists row. split; [left; reflexivity|].
      split; assumption.
  - intros Hloop. apply IH in Hloop as (row' & Hrow' & Hin' & He).
    exists row'. split; [right; exact Hrow'|]. split; assumption.
Qed.

(** X3.  [create_stocks] of seller.py returns whenever every feed row
    whose code is listed has a readable quantity: the [remove] after the
    membership test never raises, and rows that are not listed are not
    read.  When it fails, the exception is that of the quantity of a
    listed feed row. *)
Theorem create_stocks_outcome (feed : list watch) (offer_ids : list string) :
  ((forall row, In row feed -> In (code_of row) offer_ids ->
      exists q, stock_of_count (get row "Количество") = Ok q) ->
   exists stocks left,
     Seller.create_stocks feed offer_ids = (Ok stocks, left))
  /\ (forall e left,
        Seller.create_stocks feed offer_ids = (Raise e, left) ->
        exists row, In row feed /\ In (code_of row) offer_ids
                    /\ stock_of_count (get row "Количество") = Raise e).
Proof.
  unfold Seller.create_stocks. split.
  - intros Hq.
    destruct (create_stocks_loop_returns feed [] offer_ids Hq)
      as (out & ids' & ->).
    eexists. eexists. reflexivity.
  - intros e left.
    destruct (Seller.create_stocks_loop feed [] offer_ids)
      as [[out|e'] ids'] eqn:Hloop; [discriminate|].
    intros [= <- <-]. eapply create_stocks_loop_raises, Hloop.
Qed.

(** The theorem at the scenario, where the row of ["B"] is given an
    unreadable quantity and ["B"] is not listed. *)
Lemma create_stocks_outcome_witness :
  let feed : list watch :=
    [ {[ "Код" := PyStr "A"; "Количество" := PyStr ">10" ]};
      {[ "Код" := PyStr "B"; "Количество" := PyStr "many" ]} ] in
  exists stocks left, Seller.create_stocks feed ["A"; "C"] = (Ok stocks, left).
Proof.
  intros feed.
  apply (proj1 (create_stocks_outcome feed ["A"; "C"])).
  intros row [<- | [<- | []]] Hin.
  - exists 100. reflexivity.
  - exfalso. vm_compute in Hin. intuition discriminate.
Defined.

Lemma market_create_stocks_loop_as_seller (warehouse_id date : string)
    (feed : list watch) :
  forall (stocks : list Seller.stock) (ids : list string),
    Market.create_stocks_loop feed
      (map (market_stock warehouse_id date) stocks) ids warehouse_id date
    = match Seller.create_stocks_loop feed stocks ids with
      | (Ok out, ids') => (Ok (map (market_stock warehouse_id date) out), ids')
      | (Raise e, ids') => (Raise e, ids')
      end.
Proof.
  induction feed as [|row feed IH]; intros stocks ids;
    cbn [Market.create_stocks_loop Seller.create_stocks_loop]; [reflexivity|].
  destruct (contains (str (get row "Код")) ids); [|apply IH].
  destruct (stock_of_count (get row "Количество")) as [q|e]; [|reflexivity].
  destruct (remove (str (get row "Код")) ids) as [ids1|]; [|reflexivity].
  rewrite <- IH, map_app. reflexivity.
Qed.

(** X4.  [create_stocks] of market.py is [create_stocks] of seller.py in
    another record shape: it fails when and as the other fails, leaves the
    caller's list in the same state, and returns the same records in the
    same order, each with the warehouse given, one item of type ["FIT"],
    and the one reading of the clock. *)
Theorem market_create_stocks_as_seller (utcnow : nat -> string)
    (feed : list watch) (offer_ids : list string) (warehouse_id : string)
    (w : Market.world) :
  fst (Market.create_stocks utcnow feed offer_ids warehouse_id w)
  = match Seller.create_stocks feed offer_ids with
    | (Ok stocks, ids) =>
        (Ok (map (market_stock warehouse_id
                    (utcnow (Market.ticks w) ++ "Z")%string) stocks),
         ids)
    | (Raise e, ids) => (Raise e, ids)
    end.
Proof.
  unfold Market.create_stocks, Seller.create_stocks.
  change (@nil Market.stock)
    with (map (market_stock warehouse_id
                 (utcnow (Market.ticks w) ++ "Z")%string) []).
  rewrite market_create_stocks_loop_as_seller.
  destruct (Seller.create_stocks_loop feed [] offer_ids) as [[out|e] ids'];
    [|reflexivity].
  cbn [fst]. rewrite map_app, map_map. reflexivity.
Qed.

(** ** The order of the stock records and the list left to the caller *)

Lemma remove_filter (f : string -> bool) (c : string) (l l1 : list string) :
  List.NoDup l -> remove c l = Some l1 ->
  List.filter f l1 = List.filter (fun id => negb (String.eqb id c) && f id) l.
Proof.
  revert l1. induction l as [|y l IH]; intros l1 Hnd; simpl; [discriminate|].
  apply List.NoDup_cons_iff in Hnd as [Hy Hnd].
  destruct (String.eqb_spec c y) as [-> | Hne].
  - intros [= <-]. rewrite String.eqb_refl. simpl.
    apply filter_ext_in. intros id Hid.
    destruct (String.eqb_spec id y) as [-> | _]; [contradiction | reflexivity].
  - destruct (remove c l) as [l1'|]; [|discriminate]. intros [= <-].
    destruct (String.eqb_spec y c) as [-> | _]; [congruence|]. simpl.
    rewrite (IH l1' Hnd eq_refl). reflexivity.
Qed.

Lemma create_stocks_loop_left (feed : list watch) :
  forall (stocks : list Seller.stock) (ids : list string)
         (out : list Seller.stock) (ids' : list string),
    List.NoDup ids ->
    Seller.create_stocks_loop feed stocks ids = (Ok out, ids') ->
    ids' = unmatched feed ids.
Proof.
  unfold unmatched, feed_codes.
  induction feed as [|row feed IH]; intros stocks ids out ids' Hnd;
    cbn [Seller.create_stocks_loop map].
  - intros [= _ <-]. symmetry. clear Hnd.
    induction ids as [|id ids IHids]; [reflexivity|].
    unfold contains in *. simpl in *. rewrite IHids. reflexivity.
  - fold (code_of row). destruct (contains (code_of row) ids) eqn:Hin.
    + destruct (stock_of_count (get row "Количество")) as [q|e];
        [|discriminate].
      destruct (remove (code_of row) ids) as [ids1|] eqn:Hrm; [|discriminate].
      intros Hloop.
      rewrite (IH _ _ _ _ (proj1 (remove_NoDup _ _ _ Hrm Hnd)) Hloop).
      rewrite (remove_filter _ _ _ _ Hnd Hrm).
      apply filter_ext. intros id. unfold contains. simpl.
      rewrite negb_orb. reflexivity.
    + intros Hloop. rewrite (IH _ _ _ _ Hnd Hloop).
      apply filter_ext_in. intros id Hid. unfold contains at 2. simpl.
      destruct (String.eqb_spec id (code_of row)) as [-> | _]; [|reflexivity].
      apply contains_In in Hid. congruence.
Qed.

(** X5.  For a catalog of distinct identifiers, [create_stocks] leaves in
    the caller's list exactly the identifiers that no feed row has, in
    catalog order; the records it returns are those of matched
    identifiers, each the code of a feed row, followed by the zero records
    of the identifiers left, in that order. *)
Theorem create_stocks_order (feed : list watch) (offer_ids left : list string)
    (stocks : list Seller.stock) :
  List.NoDup offer_ids ->
  Seller.create_stocks feed offer_ids = (Ok stocks, left) ->
  left = unmatched feed offer_ids
  /\ exists matched : list Seller.stock,
       stocks = matched ++ map (fun id => Seller.Stock id 0) left
       /\ Forall (fun r => In (Seller.stock_offer_id r) (feed_codes feed))
            matched.
Proof.
  intros Hnd. unfold Seller.create_stocks.
  destruct (Seller.create_stocks_loop feed [] offer_ids)
    as [[new|e] ids'] eqn:Hloop; [|discriminate].
  intros [= <- <-].
  split; [apply (create_stocks_loop_left _ _ _ _ _ Hnd Hloop)|].
  exists new. split; [reflexivity|].
  apply create_stocks_loop_spec in Hloop as (new' & Hnew & _ & Hq).
  simpl in Hnew. subst new'. destruct (Hq Hnd) as [Hmatched _].
  apply List.Forall_forall. intros r Hr.
  destruct (Hmatched r Hr) as (row & Hrow & _).
  unfold first_row in Hrow. apply find_some in Hrow as [Hin Heq].
  apply String.eqb_eq in Heq. rewrite <- Heq.
  unfold feed_codes. apply in_map, Hin.
Qed.

(** The theorem at the scenario, with the catalog in another order. *)
Lemma create_stocks_order_witness :
  ["C"; "D"] = unmatched scenario_feed ["C"; "B"; "D"; "A"]
  /\ exists matched : list Seller.stock,
       [Seller.Stock "A" 100; Seller.Stock "B" 0;
        Seller.Stock "C" 0; Seller.Stock "D" 0]
       = matched ++ map (fun id => Seller.Stock id 0) ["C"; "D"]
       /\ Forall (fun r => In (Seller.stock_offer_id r)
                             (feed_codes scenario_feed)) matched.
Proof.
  apply (create_stocks_order scenario_feed ["C"; "B"; "D"; "A"]).
  - repeat (apply List.NoDup_cons; [simpl; intuition discriminate|]).
    apply List.NoDup_nil.
  - reflexivity.
Defined.

(** ** [create_prices] as a filter and a map *)

Lemma price_digits_are_digits (s : string) :
  Forall (fun c => is_digit c = true) (chars (price_digits s)).
Proof.
  unfold price_digits. rewrite sub_non_digits_filter.
  apply List.Forall_forall. intros c Hc. apply filter_In in Hc. tauto.
Qed.

Lemma price_value_of_string (s : string) :
  Py.bind (price_conversion (PyStr s)) int_of_string
  = if String.eqb (price_digits s) ""
    then Raise ValueError
    else Ok (decimal_value (chars (price_digits s))).
Proof.
  unfold price_conversion, Py.bind. fold (price_digits s).
  apply int_of_digit_string, price_digits_are_digits.
Qed.

Lemma seller_create_prices_loop_map (offer_ids : list string)
    (feed : list watch) :
  forall prices : list Seller.price,
    (forall row, In row (listed_rows feed offer_ids) ->
       exists s, get row "Цена" = PyStr s) ->
    Seller.create_prices_loop feed prices offer_ids
    = Ok (prices ++ map seller_price (listed_rows feed offer_ids)).
Proof.
  unfold listed_rows.
  induction feed as [|row feed IH]; intros prices Hstr;
    cbn [Seller.create_prices_loop List.filter map] in *.
  - rewrite app_nil_r. reflexivity.
  - fold (code_of row) in *.
    destruct (contains (code_of row) offer_ids); [|apply IH, Hstr].
    destruct (Hstr row (or_introl eq_refl)) as [s Hs].
    rewrite Hs. cbn [price_conversion map].
    rewrite IH by (intros row' Hrow'; apply Hstr; right; exact Hrow').
    rewrite <- app_assoc. unfold seller_price at 2, price_string.
    rewrite Hs. reflexivity.
Qed.

Lemma seller_create_prices_loop_raises (offer_ids : list string)
    (feed : list watch) :
  forall (prices : list Seller.price) (e : exn),
    Seller.create_prices_loop feed prices offer_ids = Raise e ->
    e = AttributeError
    /\ exists row, In row (listed_rows feed offer_ids)
                   /\ price_string row = None.
Proof.
  unfold listed_rows.
  induction feed as [|row feed IH]; intros prices e;
    cbn [Seller.create_prices_loop List.filter]; [discriminate|].
  fold (code_of row).
  destruct (contains (code_of row) offer_ids); [|apply IH].
  unfold price_conversion.
  destruct (get row "Цена") as [|z|s] eqn:Hcell.
  - intros [= <-]. split; [reflexivity|]. exists row.
    split; [left; reflexivity|]. unfold price_string. rewrite Hcell. reflexivity.
  - intros [= <-]. split; [reflexivity|]. exists row.
    split; [left; reflexivity|]. unfold price_string. rewrite Hcell. reflexivity.
  - intros Hloop. apply IH in Hloop as (He & row' & Hrow' & Hnone).
    split; [exact He|]. exists row'. split; [right; exact Hrow' | exact Hnone].
Qed.

(** X6.  [create_prices] of seller.py is a filter and a map: when the
    price of every listed feed row is a string, it returns one record per
    listed row, in feed order, with the digit string of the row's price and
    the fixed fields ["UNKNOWN"], ["RUB"] and ["0"].  It fails only with
    [AttributeError], on a listed row whose price is not a string. *)
Theorem seller_create_prices_map (feed : list watch)
    (offer_ids : list string) :
  ((forall row, In row (listed_rows feed offer_ids) ->
      exists s, get row "Цена" = PyStr s) ->
   Seller.create_prices feed offer_ids
   = Ok (map seller_price (listed_rows feed offer_ids)))
  /\ (forall e, Seller.create_prices feed offer_ids = Raise e ->
        e = AttributeError
        /\ exists row, In row (listed_rows feed offer_ids)
                       /\ price_string row = None).
Proof.
  unfold Seller.create_prices. split.
  - intros Hstr. rewrite seller_create_prices_loop_map by exact Hstr.
    reflexivity.
  - intros e. apply seller_create_prices_loop_raises.
Qed.

(** The theorem at the scenario. *)
Lemma seller_create_prices_map_witness :
  Seller.create_prices scenario_feed ["A"; "B"; "C"]
  = Ok (map seller_price (listed_rows scenario_feed ["A"; "B"; "C"])).
Proof.
  apply (proj1 (seller_create_prices_map scenario_feed ["A"; "B"; "C"])).
  intros row [<- | [<- | []]]; eexists; reflexivity.
Defined.

Lemma market_create_prices_loop_map (offer_ids : list string)
    (feed : list watch) :
  forall prices out : list Market.price,
    Market.create_prices_loop feed prices offer_ids = Ok out ->
    out = prices ++ map market_price (listed_rows feed offer_ids)
    /\ Forall (fun row => exists s, price_string row = Some s
                                    /\ price_digits s <> EmptyString)
         (listed_rows feed offer_ids).
Proof.
  unfold listed_rows.
  induction feed as [|row feed IH]; intros prices out;
    cbn [Market.create_prices_loop List.filter map].
  - intros [= <-]. rewrite app_nil_r. split; [reflexivity | constructor].
  - fold (code_of row).
    destruct (contains (code_of row) offer_ids); [|apply IH].
    destruct (get row "Цена") as [|z|s] eqn:Hcell; try discriminate.
    rewrite price_value_of_string.
    destruct (String.eqb_spec (price_digits s) ""); [discriminate|].
    intros Hloop. apply IH in Hloop as [-> Hrows]. split.
    + rewrite <- app_assoc. cbn [map app].
      unfold market_price at 2, price_string. rewrite Hcell. reflexivity.
    + constructor; [|exact Hrows]. exists s. split; [|assumption].
      unfold price_string. rewrite Hcell. reflexivity.
Qed.

Lemma market_create_prices_loop_raises (offer_ids : list string)
    (feed : list watch) :
  forall (prices : list Market.price) (e : exn),
    Market.create_prices_loop feed prices offer_ids = Raise e ->
    exists row, In row (listed_rows feed offer_ids)
      /\ ((price_string row = None /\ e = AttributeError)
          \/ (exists s, price_string row = Some s
                        /\ price_digits s = EmptyString /\ e = ValueError)).
Proof.
  unfold listed_rows.
  induction feed as [|row feed IH]; intros prices e;
    cbn [Market.create_prices_loop List.filter]; [discriminate|].
  fold (code_of row).
  destruct (contains (code_of row) offer_ids); [|apply IH].
  destruct (get row "Цена") as [|z|s] eqn:Hcell.
  - intros [= <-]. exists row. split; [left; reflexivity|]. left.
    unfold price_string. rewrite Hcell. split; reflexivity.
  - intros [= <-]. exists row. split; [left; reflexivity|]. left.
    unfold price_string. rewrite Hcell. split; reflexivity.
  - rewrite price_value_of_string.
    destruct (String.eqb_spec (price_digits s) "") as [Hempty | _].
    + intros [= <-]. exists row. split; [left; reflexivity|]. right.
      exists s. unfold price_string. rewrite Hcell. repeat split. exact Hempty.
    + intros Hloop. apply IH in Hloop as (row' & Hrow' & He).
      exists row'. split; [right; exact Hrow' | exact He].
Qed.

(** X7.  When [create_prices] of market.py returns, it returns one record
    per listed feed row, in feed order, whose value is the number the
    digits before the first ["."] of the row's price write: a non-negative
    integer, in the currency ["RUR"]; every listed row then has a string
    price with at least one such digit.  When it fails, a listed row has a
    price that is not a string ([AttributeError]) or that has no digit
    before the first ["."] ([ValueError]). *)
Theorem market_create_prices_values (feed : list watch)
    (offer_ids : list string) :
  (forall prices, Market.create_prices feed offer_ids = Ok prices ->
     prices = map market_price (listed_rows feed offer_ids)
     /\ Forall (fun row => exists s, price_string row = Some s
                                     /\ price_digits s <> EmptyString)
          (listed_rows feed offer_ids)
     /\ Forall (fun p =>
                  0 <= Market.price_value_value (Market.price_price p)
                  /\ Market.price_value_currencyId (Market.price_price p)
                     = "RUR") prices)
  /\ (forall e, Market.create_prices feed offer_ids = Raise e ->
        exists row, In row (listed_rows feed offer_ids)
          /\ ((price_string row = None /\ e = AttributeError)
              \/ (exists s, price_string row = Some s
                            /\ price_digits s = EmptyString
                            /\ e = ValueError))).
Proof.
  unfold Market.create_prices. split.
  - intros prices Hloop.
    apply market_create_prices_loop_map in Hloop as [-> Hrows].
    split; [reflexivity|]. split; [exact Hrows|].
    apply List.Forall_forall. intros p Hp.
    apply in_map_iff in Hp as (row & <- & _). split; [|reflexivity].
    apply decimal_nonneg; [apply price_digits_are_digits | lia].
  - intros e. apply market_create_prices_loop_raises.
Qed.

(** The theorem at a feed whose second listed row has the price ["руб"]. *)
Lemma market_create_prices_values_witness :
  let feed : list watch :=
    [ {[ "Код" := PyStr "A"; "Цена" := PyStr "100.00 р" ]};
      {[ "Код" := PyStr "B"; "Цена" := PyStr "руб" ]} ] in
  exists row, In row (listed_rows feed ["A"; "B"])
    /\ ((price_string row = None /\ ValueError = AttributeError)
        \/ (exists s, price_string row = Some s
                      /\ price_digits s = EmptyString
                      /\ ValueError = ValueError)).
Proof.
  intros feed.
  apply (proj2 (market_create_prices_values feed ["A"; "B"]) ValueError).
  reflexivity.
Defined.

(** ** Integer cells and converted prices *)

Lemma str_int_reads_back (z : Z) :
  exists d, NilZero.int_of_string (str (PyInt z)) = Some d
            /\ (d = Z.to_int z \/ d = Decimal.Pos (Decimal.D0 Decimal.Nil)
                \/ d = Decimal.Neg (Decimal.D0 Decimal.Nil)).
Proof.
  unfold str.
  destruct (Decimal.signed_int_eq_dec (Z.to_int z) (Decimal.Pos Decimal.Nil))
    as [-> | Hpos].
  - eexists. split; [apply NilZero.isi_posnil | tauto].
  - destruct (Decimal.signed_int_eq_dec (Z.to_int z) (Decimal.Neg Decimal.Nil))
      as [-> | Hneg].
    + eexists. split; [apply NilZero.isi_negnil | tauto].
    + eexists. split; [apply NilZero.isi; assumption | tauto].
Qed.

(** X8.  A quantity cell that holds an integer, as a spreadsheet cell
    often does, follows the same rule through its decimal writing: the
    integer 1 gives the stock 0 and every other integer, also a negative
    one, gives itself; no integer is taken for the [">10"] marker. *)
Theorem stock_of_count_int (z : Z) :
  stock_of_count (PyInt z) = Ok (if z =? 1 then 0 else z).
Proof.
  unfold stock_of_count.
  destruct (str_int_reads_back z) as (d & Hd & Hcases).
  destruct (String.eqb_spec (str (PyInt z)) ">10") as [Heq | _].
  { rewrite Heq in Hd. discriminate. }
  destruct (String.eqb_spec (str (PyInt z)) "1") as [Heq | Hne].
  - rewrite Heq in Hd. injection Hd as <-.
    destruct Hcases as [Hz | [Hz | Hz]]; try discriminate.
    apply (to_int_inj 1 z) in Hz. subst z. reflexivity.
  - destruct (Z.eqb_spec z 1) as [-> | _]; [|reflexivity].
    contradiction Hne. reflexivity.
Qed.

Lemma split_no_separator (s : string) :
  ~ In "."%char (chars s) -> split "." s = [s].
Proof.
  induction s as [|c s IH]; simpl; [reflexivity|]. intros Hdot.
  destruct (Ascii.eqb_spec c "."); [tauto|].
  rewrite IH by tauto. reflexivity.
Qed.

Lemma sub_non_digits_fixed (s : string) :
  Forall (fun c => is_digit c = true) (chars s) -> sub_non_digits s = s.
Proof.
  induction s as [|c s IH]; simpl; [reflexivity|]. intros Hs.
  inversion Hs as [|? ? Hc Hs']; subst. rewrite Hc, IH by exact Hs'.
  reflexivity.
Qed.

(** X9.  [price_conversion] leaves its own results alone: converting a
    converted price gives the same digit string, so a feed whose prices
    were converted before is read the same way. *)
Theorem price_conversion_idempotent (price : py_val) (d : string) :
  price_conversion price = Ok d ->
  price_conversion (PyStr d) = Ok d.
Proof.
  destruct price as [|z|s]; try discriminate. intros [= <-].
  fold (price_digits s). pose proof (price_digits_are_digits s) as Hd.
  unfold price_conversion. rewrite split_no_separator.
  - simpl. rewrite sub_non_digits_fixed by exact Hd. reflexivity.
  - intros Hdot. rewrite List.Forall_forall in Hd.
    apply Hd in Hdot. discriminate.
Qed.

(** The theorem at the price of the docstring. *)
Lemma price_conversion_idempotent_witness :
  price_conversion (PyStr "5990") = Ok "5990".
Proof.
  apply (price_conversion_idempotent (PyStr "5'990.00 руб")). reflexivity.
Defined.

(** ** The catalog pager of market.py *)

Section MarketPager.

Variable srv : Market.server.

Lemma market_iteration_shift (k : nat) (s : market_pager_state) :
  market_iteration srv (S k) s =
  match market_turn srv s with
  | Ok (_, s') => market_iteration srv k s'
  | Raise e => Raise e
  end.
Proof.
  induction k as [|k IH].
  - simpl. destruct (market_turn srv s) as [[p s']|e]; reflexivity.
  - change (market_iteration srv (S (S k)) s)
      with (match market_iteration srv (S k) s with
            | Ok (_, s') => market_turn srv s'
            | Raise e => Raise e
            end).
    rewrite IH. destruct (market_turn srv s) as [[p s']|e]; reflexivity.
Qed.

Lemma market_loop_unfold (fuel : nat) (s : market_pager_state) :
  market_loop_from srv (S fuel) s =
  match market_turn srv s with
  | Ok (p, s') =>
      if Market.falsy (Market.page_nextPageToken p)
      then (Some (Ok (mst_products s')), mst_world s')
      else market_loop_from srv fuel s'
  | Raise e =>
      (Some (Raise e),
       Market.World (Market.requests (mst_world s)
                     ++ [Market.OfferMappingEntries (mst_page s)])
                    (Market.ticks (mst_world s)))
  end.
Proof.
  unfold market_loop_from. cbn [Market.get_offer_ids_loop].
  unfold IO.bind, Market.get_product_list, Market.call, market_turn.
  destruct (Market.offer_mapping_entries srv (Market.requests (mst_world s))
              (mst_page s)) as [p|e]; [|reflexivity].
  cbn [mst_products mst_page mst_world].
  destruct (Market.falsy (Market.page_nextPageToken p)); reflexivity.
Qed.

Lemma market_loop_returns_at (k : nat) :
  forall (s : market_pager_state)
         (ps : Market.mapping_page * market_pager_state) (fuel : nat),
    market_iteration srv k s = Ok ps ->
    Market.falsy (Market.page_nextPageToken (fst ps)) = true ->
    (forall j, (j < k)%nat -> ~ last_page_at srv j s) ->
    (k < fuel)%nat ->
    market_loop_from srv fuel s
    = (Some (Ok (mst_products (snd ps))), mst_world (snd ps)).
Proof.
  induction k as [|k IH]; intros s ps fuel Hit Hps Hfirst Hfuel;
    (destruct fuel as [|fuel]; [lia|]); rewrite market_loop_unfold.
  - simpl in Hit. rewrite Hit. destruct ps as [p s']. simpl in Hps.
    rewrite Hps. reflexivity.
  - rewrite market_iteration_shift in Hit.
    destruct (market_turn srv s) as [[p s']|e] eqn:Hturn; [|discriminate].
    destruct (Market.falsy (Market.page_nextPageToken p)) eqn:Hnow.
    + exfalso. apply (Hfirst O); [lia|]. exists (p, s'). split; assumption.
    + apply (IH s' ps fuel Hit Hps); [|lia].
      intros j Hj (ps' & Hit' & Hps'). apply (Hfirst (S j)); [lia|].
      exists ps'. rewrite market_iteration_shift, Hturn. split; assumption.
Qed.

Lemma market_loop_returns_inv (fuel : nat) :
  forall (s : market_pager_state) out w',
    market_loop_from srv fuel s = (Some (Ok out), w') ->
    exists k ps, (k < fuel)%nat /\ market_iteration srv k s = Ok ps
                 /\ Market.falsy (Market.page_nextPageToken (fst ps)) = true.
Proof.
  induction fuel as [|fuel IH]; intros s out w'; [discriminate|].
  rewrite market_loop_unfold.
  destruct (market_turn srv s) as [[p s']|e] eqn:Hturn; [|discriminate].
  destruct (Market.falsy (Market.page_nextPageToken p)) eqn:Hnow.
  - intros _. exists O, (p, s'). simpl. rewrite Hturn.
    repeat split; (lia || assumption).
  - intros Hloop. apply IH in Hloop as (k & ps & Hk & Hit & Hps).
    exists (S k), ps. rewrite market_iteration_shift, Hturn.
    repeat split; (lia || assumption).
Qed.

Lemma market_loop_raises_inv (fuel : nat) :
  forall (s : market_pager_state) e w',
    market_loop_from srv fuel s = (Some (Raise e), w') ->
    exists k, (k < fuel)%nat /\ market_iteration srv k s = Raise e.
Proof.
  induction fuel as [|fuel IH]; intros s e w'; [discriminate|].
  rewrite market_loop_unfold.
  destruct (market_turn srv s) as [[p s']|e'] eqn:Hturn.
  - destruct (Market.falsy (Market.page_nextPageToken p)); [discriminate|].
    intros Hloop. apply IH in Hloop as (k & Hk & Hit).
    exists (S k). rewrite market_iteration_shift, Hturn.
    split; [lia | exact Hit].
  - intros [= <- <-]. exists O. simpl. split; [lia | exact Hturn].
Qed.

Lemma market_loop_running (fuel : nat) :
  forall s : market_pager_state,
    (forall k, (k < fuel)%nat ->
       exists ps, market_iteration srv k s = Ok ps
                  /\ Market.falsy (Market.page_nextPageToken (fst ps)) = false) ->
    fst (market_loop_from srv fuel s) = None.
Proof.
  induction fuel as [|fuel IH]; intros s Hrun; [reflexivity|].
  rewrite market_loop_unfold.
  destruct (Hrun O ltac:(lia)) as ([p s'] & Hit & Hps). simpl in Hit, Hps.
  rewrite Hit, Hps. apply IH. intros k Hk.
  destruct (Hrun (S k) ltac:(lia)) as (ps & Hit' & Hps').
  rewrite market_iteration_shift, Hit in Hit'. exists ps. split; assumption.
Qed.

Lemma last_page_first (k : nat) :
  forall s : market_pager_state,
    last_page_at srv k s ->
    exists k0 ps, (k0 <= k)%nat /\ market_iteration srv k0 s = Ok ps
                  /\ Market.falsy (Market.page_nextPageToken (fst ps)) = true
                  /\ forall j, (j < k0)%nat -> ~ last_page_at srv j s.
Proof.
  induction k as [|k IH]; intros s (ps & Hit & Hps).
  - exists O, ps. repeat split; (lia || assumption || (intros; lia)).
  - pose proof Hit as Hit'. rewrite market_iteration_shift in Hit'.
    destruct (market_turn srv s) as [[p s']|e] eqn:Hturn; [|discriminate].
    destruct (Market.falsy (Market.page_nextPageToken p)) eqn:Hnow.
    + exists O, (p, s'). simpl. rewrite Hturn.
      repeat split; (lia || assumption || (intros; lia)).
    + destruct (IH s') as (k0 & ps0 & Hk0 & Hit0 & Hps0 & Hfirst).
      { exists ps. split; assumption. }
      exists (S k0), ps0. rewrite market_iteration_shift, Hturn.
      repeat split; try (lia || assumption).
      intros [|j] Hj (ps' & Hitj & Hpsj).
      * simpl in Hitj. rewrite Hturn in Hitj. injection Hitj as <-.
        simpl in Hpsj. congruence.
      * rewrite market_iteration_shift, Hturn in Hitj.
        apply (Hfirst j); [lia|]. exists ps'. split; assumption.
Qed.

End MarketPager.

(** X10.  [get_offer_ids] of market.py returns exactly when some page
    comes without a next page token ([None] or the empty string).  At the
    first such page it returns the [shopSku] of every entry received, pages
    in the order received, and any fuel beyond that page gives this
    result.  While every page names a next page the loop goes on, for any
    number of iterations; an outcome other than these is the exception of
    a page request. *)
Theorem market_get_offer_ids_exit (srv : Market.server) (w : Market.world) :
  let start := MarketPagerState "" [] w in
  ((exists fuel ids w',
      Market.get_offer_ids fuel srv w = (Some (Ok ids), w'))
   <-> exists k, last_page_at srv k start)
  /\ (forall k ps,
        market_iteration srv k start = Ok ps ->
        Market.falsy (Market.page_nextPageToken (fst ps)) = true ->
        (forall j, (j < k)%nat -> ~ last_page_at srv j start) ->
        forall fuel, (k < fuel)%nat ->
          Market.get_offer_ids fuel srv w
          = (Some (Ok (mst_products (snd ps))), mst_world (snd ps)))
  /\ ((forall k, exists ps,
         market_iteration srv k start = Ok ps
         /\ Market.falsy (Market.page_nextPageToken (fst ps)) = false) ->
      forall fuel, fst (Market.get_offer_ids fuel srv w) = None)
  /\ (forall fuel e w',
        Market.get_offer_ids fuel srv w = (Some (Raise e), w') ->
        exists k, (k < fuel)%nat /\ market_iteration srv k start = Raise e).
Proof.
  intros start.
  assert (Hrun : forall fuel,
            Market.get_offer_ids fuel srv w = market_loop_from srv fuel start)
    by reflexivity.
  split; [split|split; [|split]].
  - intros (fuel & ids & w' & Hget). rewrite Hrun in Hget.
    apply market_loop_returns_inv in Hget as (k & ps & _ & Hit & Hps).
    exists k, ps. split; assumption.
  - intros (k & Hk).
    destruct (last_page_first srv k start Hk)
      as (k0 & ps & _ & Hit & Hps & Hfirst).
    exists (S k0). eexists. eexists. rewrite Hrun.
    apply (market_loop_returns_at srv k0 start ps); (assumption || lia).
  - intros k ps Hit Hps Hfirst fuel Hfuel. rewrite Hrun.
    apply (market_loop_returns_at srv k start ps); assumption.
  - intros Hnever fuel. rewrite Hrun.
    apply market_loop_running. intros k _. apply Hnever.
  - intros fuel e w' Hget. rewrite Hrun in Hget.
    eapply market_loop_raises_inv, Hget.
Qed.

(** The theorem at the campaign of the scenario, which has one page. *)
Lemma market_get_offer_ids_exit_witness :
  Market.get_offer_ids 2 rejecting_campaign (Market.World [] 0)
  = (Some (Ok ["A"; "B"; "C"]),
     Market.World [Market.OfferMappingEntries ""] 0).
Proof.
  apply (proj1 (proj2 (market_get_offer_ids_exit rejecting_campaign
                         (Market.World [] 0))) O
           (Market.Page ["A"; "B"; "C"] None,
            MarketPagerState "" ["A"; "B"; "C"]
              (Market.World [Market.OfferMappingEntries ""] 0))).
  - reflexivity.
  - reflexivity.
  - intros j Hj. inversion Hj.
  - lia.
Defined.

(** ** The requests a computation adds *)

Section SellerAdds.

Variable P : Seller.request -> Prop.

Lemma seller_adds_nothing {A : Type} (r : option (result A))
    (h : list Seller.request) :
  seller_adds_at P (fun h => (r, h)) h.
Proof. exists []. rewrite app_nil_r. split; [reflexivity | constructor]. Qed.

Lemma seller_adds_bind {A B : Type} (c : Seller.io A) (k : A -> Seller.io B)
    (h : list Seller.request) :
  seller_adds_at P c h ->
  (forall a h', c h = (Some (Ok a), h') -> seller_adds_at P (k a) h') ->
  seller_adds_at P (IO.bind c k) h.
Proof.
  intros (added & Hc & Hadded) Hk. unfold seller_adds_at, IO.bind.
  destruct (c h) as [[[a|e]|] h'] eqn:Hrun; simpl in Hc; subst h'.
  - destruct (Hk a _ eq_refl) as (added' & Hk' & Hadded').
    exists (added ++ added'). rewrite Hk', app_assoc.
    split; [reflexivity | apply Forall_app; split; assumption].
  - exists added. split; [reflexivity | assumption].
  - exists added. split; [reflexivity | assumption].
Qed.

Lemma seller_adds_for_each {A : Type} (body : A -> Seller.io unit)
    (l : list A) :
  (forall x, In x l -> seller_adds P (body x)) ->
  seller_adds P (IO.for_each body l).
Proof.
  induction l as [|x l IH]; intros Hbody h; cbn [IO.for_each].
  - apply seller_adds_nothing.
  - apply seller_adds_bind; [apply Hbody; left; reflexivity|].
    intros _ h' _. apply IH. intros y Hy. apply Hbody. right. exact Hy.
Qed.

Lemma seller_adds_pager (srv : Seller.server) (fuel : nat) :
  (forall last_id, P (Seller.ProductList last_id)) ->
  forall last_id product_list,
    seller_adds P (Seller.get_offer_ids_loop fuel srv last_id product_list).
Proof.
  intros HP. induction fuel as [|fuel IH]; intros last_id product_list h;
    cbn [Seller.get_offer_ids_loop].
  - apply seller_adds_nothing.
  - apply seller_adds_bind.
    + exists [Seller.ProductList last_id].
      split; [reflexivity | constructor; [apply HP | constructor]].
    + intros p h' _. destruct (Seller.page_total p) as [t|]; [|apply IH].
      destruct (t =? _); [apply seller_adds_nothing | apply IH].
Qed.

End SellerAdds.

Section MarketAdds.

Variable P : Market.request -> Prop.

Lemma market_adds_nothing {A : Type}
    (c : Market.io A) (w : Market.world) :
  Market.requests (snd (c w)) = Market.requests w ->
  market_adds_at P c w.
Proof.
  intros Hc. exists []. rewrite app_nil_r. split; [exact Hc | constructor].
Qed.

Lemma market_adds_bind {A B : Type} (c : Market.io A) (k : A -> Market.io B)
    (w : Market.world) :
  market_adds_at P c w ->
  (forall a w', c w = (Some (Ok a), w') -> market_adds_at P (k a) w') ->
  market_adds_at P (IO.bind c k) w.
Proof.
  intros (added & Hc & Hadded) Hk. unfold market_adds_at, IO.bind.
  destruct (c w) as [[[a|e]|] w'] eqn:Hrun; simpl in Hc.
  - destruct (Hk a _ eq_refl) as (added' & Hk' & Hadded').
    exists (added ++ added'). rewrite Hk', Hc, app_assoc.
    split; [reflexivity | apply Forall_app; split; assumption].
  - exists added. split; assumption.
  - exists added. split; assumption.
Qed.

Lemma market_adds_call {A : Type} (answer : list Market.request -> result A)
    (r : Market.request) :
  P r -> market_adds P (Market.call answer r).
Proof.
  intros Hr w. exists [r].
  split; [reflexivity | constructor; [exact Hr | constructor]].
Qed.

Lemma market_adds_for_each {A : Type} (body : A -> Market.io unit)
    (l : list A) :
  (forall x, In x l -> market_adds P (body x)) ->
  market_adds P (IO.for_each body l).
Proof.
  induction l as [|x l IH]; intros Hbody w; cbn [IO.for_each].
  - apply market_adds_nothing. reflexivity.
  - apply market_adds_bind; [apply Hbody; left; reflexivity|].
    intros _ w' _. apply IH. intros y Hy. apply Hbody. right. exact Hy.
Qed.

Lemma market_adds_pager (srv : Market.server) (fuel : nat) :
  (forall page, P (Market.OfferMappingEntries page)) ->
  forall page product_list,
    market_adds P (Market.get_offer_ids_loop fuel srv page product_list).
Proof.
  intros HP. induction fuel as [|fuel IH]; intros page product_list w;
    cbn [Market.get_offer_ids_loop].
  - apply market_adds_nothing. reflexivity.
  - apply market_adds_bind.
    + apply market_adds_call, HP.
    + intros p w' _. destruct (Market.falsy (Market.page_nextPageToken p));
        [apply market_adds_nothing; reflexivity | apply IH].
Qed.

Lemma market_adds_create_stocks (utcnow : nat -> string)
    (feed : list watch) (offer_ids : list string) (warehouse_id : string) :
  market_adds P
    (fun w =>
       let '(created, _, w) :=
         Market.create_stocks utcnow feed offer_ids warehouse_id w in
       (Some created, w)).
Proof.
  intros w. apply market_adds_nothing.
  unfold Market.create_stocks.
  destruct (Market.create_stocks_loop feed [] offer_ids warehouse_id _)
    as [[out|e] ids']; reflexivity.
Qed.

End MarketAdds.

(** ** What the two [main] functions send *)

(** X11.  [main] of market.py never sends a price update: both calls of
    [upload_prices] lack the [await], so for each campaign only the catalog
    is read and the stocks are sent.  An exception inside the [try] block
    does not leave [main]; the exception of [download_stock], which is
    called before the block, does, and then nothing has been requested. *)
Theorem market_main_no_price_update (fuel : nat)
    (campaign_fbs campaign_dbs : Market.server) (utcnow : nat -> string)
    (download_stock : result (list watch))
    (warehouse_fbs_id warehouse_dbs_id : string) :
  let main := Market.main fuel campaign_fbs campaign_dbs utcnow download_stock
                warehouse_fbs_id warehouse_dbs_id in
  market_adds not_post_prices main
  /\ (forall feed w e,
        download_stock = Ok feed -> fst (main w) <> Some (Raise e))
  /\ (forall e w, download_stock = Raise e -> main w = (Some (Raise e), w)).
Proof.
  intros main. unfold main, Market.main. split; [|split].
  - intros w. destruct download_stock as [feed|e].
    + assert (Htry : market_adds_at not_post_prices
                (Market.main_try fuel campaign_fbs campaign_dbs utcnow feed
                   warehouse_fbs_id warehouse_dbs_id) w).
      { unfold Market.main_try, Market.get_offer_ids.
        repeat (first
          [ apply market_adds_bind; [|intros ? ? _]
          | apply market_adds_pager; intros; exact I
          | apply market_adds_create_stocks
          | apply market_adds_for_each; intros;
            apply market_adds_call; exact I
          | apply market_adds_nothing; reflexivity ]). }
      destruct Htry as (added & Hreq & Hadded). exists added.
      split; [|exact Hadded]. rewrite <- Hreq.
      destruct (Market.main_try _ _ _ _ _ _ _ w) as [[[u|e]|] w'];
        reflexivity.
    + apply market_adds_nothing. reflexivity.
  - intros feed w e ->.
    destruct (Market.main_try _ _ _ _ _ _ _ w) as [[[u|e']|] w'];
      discriminate.
  - intros e w ->. reflexivity.
Qed.

Lemma seller_main_requests (fuel : nat) (srv : Seller.server)
    (download_stock : result (list watch)) (h : list Seller.request) :
  snd (Seller.main fuel srv download_stock h)
  = snd (Seller.main_try fuel srv download_stock h).
Proof.
  unfold Seller.main.
  destruct (Seller.main_try fuel srv download_stock h) as [[[u|e]|] h'];
    reflexivity.
Qed.

(** The [try] block of [main] of seller.py lets no exception out, and
    for a catalog of distinct identifiers it sends no price update. *)
Lemma seller_main_try_block (fuel : nat) (srv : Seller.server)
    (download_stock : result (list watch)) (h : list Seller.request) :
  (forall e, fst (Seller.main fuel srv download_stock h) <> Some (Raise e))
  /\ ((forall offer_ids h1,
         Seller.get_offer_ids fuel srv h = (Some (Ok offer_ids), h1) ->
         List.NoDup offer_ids) ->
      seller_adds_at not_import_prices (Seller.main fuel srv download_stock) h).
Proof.
  split.
  - intros e. unfold Seller.main.
    destruct (Seller.main_try fuel srv download_stock h) as [[[u|e']|] h'];
      discriminate.
  - intros Hnd.
    unfold seller_adds_at. rewrite seller_main_requests.
    unfold Seller.main_try. apply seller_adds_bind.
    + unfold Seller.get_offer_ids. apply seller_adds_bind.
      * apply seller_adds_pager. intros; exact I.
      * intros pl h' _. apply seller_adds_nothing.
    + intros offer_ids h1 Hids. apply Hnd in Hids.
      apply seller_adds_bind; [apply seller_adds_nothing|].
      intros feed h2 _.
      destruct (Seller.create_stocks feed offer_ids)
        as [[stocks|e] rest] eqn:Hcreate.
      * apply seller_adds_bind; [apply seller_adds_nothing|].
        intros stocks' h3 _.
        apply seller_adds_bind; [apply seller_adds_nothing|].
        intros chunks h4 _. apply seller_adds_bind.
        { apply seller_adds_for_each. intros c _ h5.
          exists [Seller.ImportStocks c].
          split; [reflexivity | repeat constructor]. }
        intros _ h5 _.
        rewrite (create_prices_after_create_stocks _ _ _ _ Hids Hcreate).
        apply seller_adds_bind; [apply seller_adds_nothing|].
        intros prices h6 [= <- <-]. apply seller_adds_nothing.
      * apply seller_adds_bind; [apply seller_adds_nothing|].
        intros a h3 [=].
Qed.

(** X12.  The only exception that leaves [main] of seller.py is the
    [EnvError] of [env.str] for a [SELLER_TOKEN] or [CLIENT_ID] that is not
    set, raised before anything is requested.  With both set no exception
    leaves it, every exception of the [try] block being caught, and for a
    catalog of distinct identifiers it never sends a price update, whatever
    the feed: [create_prices] gets the list that [create_stocks] has
    emptied of every identifier the feed has. *)
Theorem seller_main_no_price_update (env : string -> option string)
    (account : string -> string -> Seller.server) (fuel : nat)
    (download_stock : result (list watch)) (h : list Seller.request) :
  let main := Seller.main_from_env env account fuel download_stock in
  (forall e, fst (main h) = Some (Raise e) ->
     e = EnvError
     /\ (env "SELLER_TOKEN" = None \/ env "CLIENT_ID" = None)
     /\ snd (main h) = h)
  /\ (env "SELLER_TOKEN" = None \/ env "CLIENT_ID" = None ->
      main h = (Some (Raise EnvError), h))
  /\ (forall seller_token client_id,
        env "SELLER_TOKEN" = Some seller_token ->
        env "CLIENT_ID" = Some client_id ->
        (forall e, fst (main h) <> Some (Raise e))
        /\ ((forall offer_ids h1,
               Seller.get_offer_ids fuel (account client_id seller_token) h
               = (Some (Ok offer_ids), h1) ->
               List.NoDup offer_ids) ->
            seller_adds_at not_import_prices main h)).
Proof.
  intros main. unfold main, Seller.main_from_env.
  destruct (env "SELLER_TOKEN") as [seller_token|];
    [destruct (env "CLIENT_ID") as [client_id|]|].
  - pose proof (seller_main_try_block fuel (account client_id seller_token)
                  download_stock h) as [Hcaught Hprices].
    split; [|split].
    + intros e He. contradiction (Hcaught e He).
    + intros [H | H]; discriminate.
    + intros ? ? [= <-] [= <-]. split; assumption.
  - split; [|split].
    + intros e [= <-]. repeat split. right. reflexivity.
    + intros _. reflexivity.
    + intros ? ? _ [=].
  - split; [|split].
    + intros e [= <-]. repeat split. left. reflexivity.
    + intros _. reflexivity.
    + intros ? ? [=].
Qed.

(** The theorem at an environment with both variables, the account with
    two products and the feed of one row. *)
Lemma seller_main_no_price_update_witness :
  let env := fun name : string =>
    if String.eqb name "SELLER_TOKEN" then Some "token"
    else if String.eqb name "CLIENT_ID" then Some "client" else None in
  let main := Seller.main_from_env env (fun _ _ => two_products) 2
                (Ok one_row_feed) in
  (forall e, fst (main []) <> Some (Raise e))
  /\ seller_adds_at not_import_prices main [].
Proof.
  intros env main.
  destruct (proj2 (proj2 (seller_main_no_price_update env
                            (fun _ _ => two_products) 2 (Ok one_row_feed) []))
              "token" "client" eq_refl eq_refl) as [Hcaught Hprices].
  split; [exact Hcaught|]. apply Hprices.
  intros offer_ids h1 Hget. vm_compute in Hget. injection Hget as <- _.
  repeat (apply List.NoDup_cons; [simpl; intuition discriminate|]).
  apply List.NoDup_nil.
Defined.

(** ** The upload coroutines *)

Lemma divide_ok_chunks {A : Type} (lst : list A) (n : Z)
    (chunks : list (list A)) :
  0 < n -> divide lst n = Ok chunks ->
  concat chunks = lst
  /\ Forall (fun c => c <> [] /\ Z.of_nat (length c) <= n) chunks.
Proof.
  intros Hn. unfold divide.
  destruct (Z.eqb_spec n 0); [lia|]. destruct (Z.ltb_spec n 0); [lia|].
  assert (Hstep : (0 < Z.to_nat n)%nat) by lia.
  intros [= <-]. split; [rewrite chunks_concat by lia; reflexivity|].
  apply List.Forall_forall. intros c Hc.
  apply in_map_iff in Hc as (i & <- & Hi). apply range_from_lt in Hi.
  rewrite slice_length by exact Hstep. split; [|lia].
  intros Hnil. apply (f_equal (@length A)) in Hnil.
  rewrite slice_length in Hnil by exact Hstep. simpl in Hnil. lia.
Qed.

Lemma seller_update_stocks_prefix (srv : Seller.server)
    (chunks : list (list Seller.stock)) :
  forall h : list Seller.request,
    exists k : nat,
      (k <= length chunks)%nat
      /\ snd (IO.for_each (Seller.update_stocks srv) chunks h)
         = h ++ map Seller.ImportStocks (firstn k chunks)
      /\ fst (IO.for_each (Seller.update_stocks srv) chunks h) <> None
      /\ (forall u, fst (IO.for_each (Seller.update_stocks srv) chunks h)
                    = Some (Ok u) -> k = length chunks).
Proof.
  induction chunks as [|c chunks IH]; intros h; cbn [IO.for_each].
  - exists O. simpl. rewrite app_nil_r. repeat split; (lia || discriminate).
  - unfold IO.bind, Seller.update_stocks at 1 3 5.
    destruct (Seller.import_stocks srv h c) as [u|e].
    + destruct (IH (h ++ [Seller.ImportStocks c])) as (k & Hk & Hreq & Hsome & Hok).
      exists (S k). simpl. rewrite Hreq, <- app_assoc.
      split; [lia|]. split; [reflexivity|]. split; [exact Hsome|].
      intros u' Hu'. rewrite (Hok u' Hu'). reflexivity.
    + exists 1%nat. simpl. repeat split; (lia || discriminate).
Qed.

(** X13.  Once the catalog is read, [upload_stocks] of seller.py either
    fails on the feed before anything is sent, or cuts the records into
    non-empty chunks of at most 100 that together are the record list and
    sends them in order: the stock requests issued are always the first
    [k] chunks, all of them when the coroutine returns, and it then
    returns the records with a non-zero stock next to all the records. *)
Theorem seller_upload_stocks_requests (fuel : nat) (srv : Seller.server)
    (feed : list watch) (h h1 : list Seller.request)
    (offer_ids : list string) :
  Seller.get_offer_ids fuel srv h = (Some (Ok offer_ids), h1) ->
  let upload := Seller.upload_stocks fuel srv feed h in
  (forall e, fst (Seller.create_stocks feed offer_ids) = Raise e ->
     upload = (Some (Raise e), h1))
  /\ (forall stocks, fst (Seller.create_stocks feed offer_ids) = Ok stocks ->
        exists (chunks : list (list Seller.stock)) (k : nat),
          divide stocks 100 = Ok chunks
          /\ concat chunks = stocks
          /\ Forall (fun c => c <> [] /\ Z.of_nat (length c) <= 100) chunks
          /\ (k <= length chunks)%nat
          /\ snd upload = h1 ++ map Seller.ImportStocks (firstn k chunks)
          /\ fst upload <> None
          /\ (forall r, fst upload = Some (Ok r) ->
                k = length chunks
                /\ r = (List.filter
                          (fun s => negb (Seller.stock_stock s =? 0)) stocks,
                        stocks))).
Proof.
  intros Hget upload.
  assert (Hupload : upload =
    match fst (Seller.create_stocks feed offer_ids) with
    | Raise e => (Some (Raise e), h1)
    | Ok stocks =>
        match divide stocks 100 with
        | Raise e => (Some (Raise e), h1)
        | Ok chunks =>
            match IO.for_each (Seller.update_stocks srv) chunks h1 with
            | (Some (Ok _), h2) =>
                (Some (Ok (List.filter
                             (fun s => negb (Seller.stock_stock s =? 0)) stocks,
                           stocks)), h2)
            | (Some (Raise e), h2) => (Some (Raise e), h2)
            | (None, h2) => (None, h2)
            end
        end
    end).
  { unfold upload, Seller.upload_stocks, IO.bind at 1. rewrite Hget.
    reflexivity. }
  clearbody upload. subst upload.
  destruct (Seller.create_stocks feed offer_ids) as [[stocks0|e0] rest];
    cbn [fst]; (split; [intros e [= <-]; reflexivity|]); intros stocks [= <-].
  destruct (divide stocks0 100) as [chunks|e] eqn:Hdiv;
    [|unfold divide in Hdiv; simpl in Hdiv; discriminate].
  destruct (divide_ok_chunks stocks0 100 chunks ltac:(lia) Hdiv)
    as [Hcat Hbound].
  destruct (seller_update_stocks_prefix srv chunks h1)
    as (k & Hk & Hreq & Hsome & Hok).
  exists chunks, k.
  destruct (IO.for_each (Seller.update_stocks srv) chunks h1)
    as [[[u|e]|] h2]; cbn [fst snd] in *;
    repeat split; try (assumption || discriminate || congruence).
  apply (Hok u eq_refl).
Qed.

(** The theorem at the account with two products and the feed of one
    row. *)
Lemma seller_upload_stocks_requests_witness :
  Seller.upload_stocks 2 two_products
    [ {[ "Код" := PyStr "A"; "Количество" := PyStr "many" ]} ] []
  = (Some (Raise ValueError), [Seller.ProductList ""]).
Proof.
  apply (proj1 (seller_upload_stocks_requests 2 two_products
                  [ {[ "Код" := PyStr "A"; "Количество" := PyStr "many" ]} ]
                  [] [Seller.ProductList ""] ["A"; "B"] eq_refl)).
  reflexivity.
Defined.

Lemma create_stocks_loop_rows (feed : list watch) :
  forall (stocks : list Seller.stock) (ids : list string)
         (out : list Seller.stock) (ids' : list string),
    Seller.create_stocks_loop feed stocks ids = (Ok out, ids') ->
    exists new : list Seller.stock,
      out = stocks ++ new
      /\ Forall (fun r => exists row,
                   In row feed /\ code_of row = Seller.stock_offer_id r
                   /\ stock_of_count (get row "Количество")
                      = Ok (Seller.stock_stock r)) new.
Proof.
  induction feed as [|row feed IH]; intros stocks ids out ids';
    cbn [Seller.create_stocks_loop].
  - intros [= <- _]. exists []. rewrite app_nil_r.
    split; [reflexivity | constructor].
  - assert (Hweaken : forall new : list Seller.stock,
      Forall (fun r => exists row0,
                In row0 feed /\ code_of row0 = Seller.stock_offer_id r
                /\ stock_of_count (get row0 "Количество")
                   = Ok (Seller.stock_stock r)) new ->
      Forall (fun r => exists row0,
                In row0 (row :: feed) /\ code_of row0 = Seller.stock_offer_id r
                /\ stock_of_count (get row0 "Количество")
                   = Ok (Seller.stock_stock r)) new).
    { intros new. apply List.Forall_impl. intros r (row0 & Hin & Hrest).
      exists row0. split; [right; exact Hin | exact Hrest]. }
    fold (code_of row). destruct (contains (code_of row) ids).
    + destruct (stock_of_count (get row "Количество")) as [q|e] eqn:Hq;
        [|discriminate].
      destruct (remove (code_of row) ids) as [ids1|]; [|discriminate].
      intros Hloop. apply IH in Hloop as (new & -> & Hnew).
      exists (Seller.Stock (code_of row) q :: new). rewrite <- app_assoc.
      split; [reflexivity|]. constructor; [|apply Hweaken, Hnew].
      exists row. split; [left; reflexivity|]. split; [reflexivity | exact Hq].
    + intros Hloop. apply IH in Hloop as (new & -> & Hnew).
      exists new. split; [reflexivity | apply Hweaken, Hnew].
Qed.

(** X14.  The first list [upload_stocks] of seller.py returns holds
    exactly the records of the second with a non-zero stock, and each of
    them is a product of the feed: a feed row has its code and its
    quantity, so that an identifier the feed does not have is never
    reported as in stock. *)
Theorem seller_not_empty_in_feed (fuel : nat) (srv : Seller.server)
    (feed : list watch) (h h' : list Seller.request)
    (not_empty stocks : list Seller.stock) :
  Seller.upload_stocks fuel srv feed h = (Some (Ok (not_empty, stocks)), h') ->
  (forall r, In r not_empty <-> In r stocks /\ Seller.stock_stock r <> 0)
  /\ Forall (fun r => exists row,
               In row feed /\ code_of row = Seller.stock_offer_id r
               /\ stock_of_count (get row "Количество")
                  = Ok (Seller.stock_stock r)) not_empty.
Proof.
  intros Hup. apply upload_stocks_inv in Hup as (pl & h1 & _ & Hc & Hf).
  simpl in Hc, Hf. subst not_empty.
  assert (Hiff : forall r,
            In r (List.filter (fun s => negb (Seller.stock_stock s =? 0)) stocks)
            <-> In r stocks /\ Seller.stock_stock r <> 0).
  { intros r. rewrite filter_In, negb_true_iff, Z.eqb_neq. reflexivity. }
  split; [exact Hiff|].
  apply List.Forall_forall. intros r Hr. apply Hiff in Hr as [Hr Hnz].
  unfold Seller.create_stocks in Hc.
  destruct (Seller.create_stocks_loop feed [] (map Seller.product_offer_id pl))
    as [[new|e] ids'] eqn:Hloop; [|discriminate].
  simpl in Hc. injection Hc as <-.
  apply create_stocks_loop_rows in Hloop as (new' & Hnew & Hrows).
  simpl in Hnew. subst new'.
  apply in_app_or in Hr as [Hr | Hr].
  - rewrite List.Forall_forall in Hrows. apply Hrows, Hr.
  - apply in_map_iff in Hr as (id & <- & _). simpl in Hnz. lia.
Qed.

(** The theorem at the account with two products and the feed of one
    row. *)
Lemma seller_not_empty_in_feed_witness :
  Forall (fun r => exists row,
            In row one_row_feed /\ code_of row = Seller.stock_offer_id r
            /\ stock_of_count (get row "Количество")
               = Ok (Seller.stock_stock r)) [Seller.Stock "A" 5].
Proof.
  apply (proj2 (seller_not_empty_in_feed 2 two_products one_row_feed []
                  [Seller.ProductList "";
                   Seller.ImportStocks [Seller.Stock "A" 5; Seller.Stock "B" 0]]
                  [Seller.Stock "A" 5]
                  [Seller.Stock "A" 5; Seller.Stock "B" 0] eq_refl)).
Defined.

Lemma market_update_price_prefix (srv : Market.server)
    (chunks : list (list Market.price)) :
  forall w : Market.world,
    exists k : nat,
      (k <= length chunks)%nat
      /\ snd (IO.for_each (Market.update_price srv) chunks w)
         = Market.World
             (Market.requests w ++ map Market.PostPrices (firstn k chunks))
             (Market.ticks w)
      /\ fst (IO.for_each (Market.update_price srv) chunks w) <> None
      /\ (forall u, fst (IO.for_each (Market.update_price srv) chunks w)
                    = Some (Ok u) -> k = length chunks).
Proof.
  induction chunks as [|c chunks IH]; intros [h t]; cbn [IO.for_each].
  - exists O. simpl. rewrite app_nil_r. repeat split; (lia || discriminate).
  - unfold IO.bind, Market.update_price at 1 3 5, Market.call.
    cbn [Market.requests Market.ticks].
    destruct (Market.post_prices srv h c) as [u|e].
    + destruct (IH (Market.World (h ++ [Market.PostPrices c]) t))
        as (k & Hk & Hreq & Hsome & Hok).
      exists (S k). simpl in *. rewrite Hreq, <- app_assoc.
      split; [lia|]. split; [reflexivity|]. split; [exact Hsome|].
      intros u' Hu'. rewrite (Hok u' Hu'). reflexivity.
    + exists 1%nat. simpl. repeat split; (lia || discriminate).
Qed.

(** X15.  Once the catalog is read, [upload_prices] of market.py either
    fails on the feed before anything is sent, or cuts the price records
    into non-empty chunks of at most 500 that together are the record list
    and sends them in order: the price requests issued are always the
    first [k] chunks, all of them when the coroutine returns, which then
    returns the records.  It never reads the clock. *)
Theorem market_upload_prices_requests (fuel : nat) (srv : Market.server)
    (feed : list watch) (w w1 : Market.world) (offer_ids : list string) :
  Market.get_offer_ids fuel srv w = (Some (Ok offer_ids), w1) ->
  let upload := Market.upload_prices fuel srv feed w in
  (forall e, Market.create_prices feed offer_ids = Raise e ->
     upload = (Some (Raise e), w1))
  /\ (forall prices, Market.create_prices feed offer_ids = Ok prices ->
        exists (chunks : list (list Market.price)) (k : nat),
          divide prices 500 = Ok chunks
          /\ concat chunks = prices
          /\ Forall (fun c => c <> [] /\ Z.of_nat (length c) <= 500) chunks
          /\ (k <= length chunks)%nat
          /\ snd upload
             = Market.World
                 (Market.requests w1
                  ++ map Market.PostPrices (firstn k chunks))
                 (Market.ticks w1)
          /\ fst upload <> None
          /\ (forall r, fst upload = Some (Ok r) ->
                k = length chunks /\ r = prices)).
Proof.
  intros Hget upload.
  assert (Hupload : upload =
    match Market.create_prices feed offer_ids with
    | Raise e => (Some (Raise e), w1)
    | Ok prices =>
        match divide prices 500 with
        | Raise e => (Some (Raise e), w1)
        | Ok chunks =>
            match IO.for_each (Market.update_price srv) chunks w1 with
            | (Some (Ok _), w2) => (Some (Ok prices), w2)
            | (Some (Raise e), w2) => (Some (Raise e), w2)
            | (None, w2) => (None, w2)
            end
        end
    end).
  { unfold upload, Market.upload_prices, IO.bind at 1. rewrite Hget.
    reflexivity. }
  clearbody upload. subst upload.
  destruct (Market.create_prices feed offer_ids) as [prices0|e0];
    (split; [intros e [= <-]; reflexivity|]); intros prices [= <-].
  destruct (divide prices0 500) as [chunks|e] eqn:Hdiv;
    [|unfold divide in Hdiv; simpl in Hdiv; discriminate].
  destruct (divide_ok_chunks prices0 500 chunks ltac:(lia) Hdiv)
    as [Hcat Hbound].
  destruct (market_update_price_prefix srv chunks w1)
    as (k & Hk & Hreq & Hsome & Hok).
  exists chunks, k.
  destruct (IO.for_each (Market.update_price srv) chunks w1)
    as [[[u|e]|] w2]; cbn [fst snd] in *;
    repeat split; try (assumption || discriminate || congruence).
  apply (Hok u eq_refl).
Qed.

(** The theorem at the campaign of the scenario. *)
Lemma market_upload_prices_requests_witness :
  exists (chunks : list (list Market.price)) (k : nat),
    divide [Market.Price "A" (Market.PriceValue 100 "RUR");
            Market.Price "B" (Market.PriceValue 50 "RUR")] 500 = Ok chunks
    /\ (k <= length chunks)%nat.
Proof.
  destruct (proj2 (market_upload_prices_requests 2 rejecting_campaign
                     scenario_feed (Market.World [] 0)
                     (Market.World [Market.OfferMappingEntries ""] 0)
                     ["A"; "B"; "C"] eq_refl)
              [Market.Price "A" (Market.PriceValue 100 "RUR");
               Market.Price "B" (Market.PriceValue 50 "RUR")] eq_refl)
    as (chunks & k & Hdiv & _ & _ & Hk & _).
  exists chunks, k. split; assumption.
Defined.

(** ** The requests of the pager of seller.py *)

Lemma get_offer_ids_loop_pages (srv : Seller.server) (fuel : nat) :
  forall (last_id : string) (acc out : list Seller.product)
         (h h' : list Seller.request),
    Seller.get_offer_ids_loop fuel srv last_id acc h = (Some (Ok out), h') ->
    exists pages : list Seller.page,
      pages <> []
      /\ page_answers srv h last_id pages
      /\ h' = h ++ page_requests last_id pages
      /\ out = acc ++ concat (map Seller.page_items pages)
      /\ Seller.page_total (List.last pages (Seller.Page [] None ""))
         = Some (Z.of_nat (length out)).
Proof.
  induction fuel as [|fuel IH]; intros last_id acc out h h'; [discriminate|].
  cbn [Seller.get_offer_ids_loop]. unfold IO.bind, Seller.get_product_list.
  destruct (Seller.product_list srv h last_id) as [p|e] eqn:Hpage;
    [|discriminate].
  assert (Hnext :
    Seller.get_offer_ids_loop fuel srv (Seller.page_last_id p)
      (acc ++ Seller.page_items p) (h ++ [Seller.ProductList last_id])
    = (Some (Ok out), h') ->
    exists pages : list Seller.page,
      pages <> []
      /\ page_answers srv h last_id pages
      /\ h' = h ++ page_requests last_id pages
      /\ out = acc ++ concat (map Seller.page_items pages)
      /\ Seller.page_total (List.last pages (Seller.Page [] None ""))
         = Some (Z.of_nat (length out))).
  { intros Hloop. apply IH in Hloop as (pages & Hne & Hans & -> & -> & Hlast).
    exists (p :: pages). split; [discriminate|].
    split; [split; assumption|].
    cbn [page_requests map concat]. rewrite <- !app_assoc.
    split; [reflexivity|]. split; [reflexivity|].
    destruct pages as [|p' pages]; [congruence|].
    rewrite <- app_assoc in Hlast. exact Hlast. }
  destruct (Seller.page_total p) as [t|] eqn:Htotal; [|exact Hnext].
  destruct (Z.eqb_spec t (Z.of_nat (length (acc ++ Seller.page_items p))))
    as [-> | _]; [|exact Hnext].
  intros [= <- <-]. exists [p]. simpl. rewrite app_nil_r.
  split; [discriminate|]. repeat split; assumption.
Qed.

(** X16.  When [get_offer_ids] of seller.py returns, it has fetched at
    least one page; its requests are one per page, the first with the
    empty [last_id] and each later one with the [last_id] of the page
    answered before; the identifiers returned are those of the items of
    all the pages answered, in order, and their number is the [total] of
    the last page. *)
Theorem get_offer_ids_pages (fuel : nat) (srv : Seller.server)
    (h h' : list Seller.request) (offer_ids : list string) :
  Seller.get_offer_ids fuel srv h = (Some (Ok offer_ids), h') ->
  exists pages : list Seller.page,
    pages <> []
    /\ page_answers srv h "" pages
    /\ h' = h ++ page_requests "" pages
    /\ offer_ids
       = map Seller.product_offer_id (concat (map Seller.page_items pages))
    /\ Seller.page_total (List.last pages (Seller.Page [] None ""))
       = Some (Z.of_nat (length offer_ids)).
Proof.
  unfold Seller.get_offer_ids, IO.bind, IO.ret.
  destruct (Seller.get_offer_ids_loop fuel srv "" [] h) as [[[out|e]|] h1]
    eqn:Hloop; try discriminate.
  intros [= <- <-].
  apply get_offer_ids_loop_pages in Hloop
    as (pages & Hne & Hans & -> & -> & Hlast).
  exists pages. rewrite length_map. repeat split; assumption.
Qed.

(** The theorem at the account with two products. *)
Lemma get_offer_ids_pages_witness :
  exists pages : list Seller.page,
    pages <> []
    /\ page_answers two_products [] "" pages
    /\ [Seller.ProductList ""] = [] ++ page_requests "" pages
    /\ ["A"; "B"]
       = map Seller.product_offer_id (concat (map Seller.page_items pages))
    /\ Seller.page_total (List.last pages (Seller.Page [] None ""))
       = Some (Z.of_nat (length ["A"; "B"])).
Proof.
  apply (get_offer_ids_pages 2 two_products [] [Seller.ProductList ""]
           ["A"; "B"]).
  reflexivity.
Defined.
